(** * Optimistic cache mutations of the task-management front-end

    A shallow embedding of the mutation handlers of three React components:

    - [Actions] (src/app/_components/Actions.tsx): [bulkUpdateMutation],
      [handleOverdueBulkReschedule], [bulkDeleteMutation];
    - [OutcomeMultiSelect] (second module of
      src/app/_components/CalendarToggleButton.tsx): [updateProject],
      [createOutcomeMutation];
    - [TokensPage] (src/app/(sidemenu)/tokens/page.tsx): [generateToken],
      [revokeToken], and the state of its modal;
    - the select of [OutcomeMultiSelect]: its options and its [onChange];
    - [GoalsTable] and [UnifiedDatePicker] (further modules of
      src/app/_components/Actions.tsx), as functions of their props and state;
    - the route handler [GET] (second module of tokens/page.tsx), in an
      error monad with a trace of its calls.

    The handlers are effectful: they read and write the client-side query
    cache ([utils.<router>.<procedure>.getData / setData]), mark queries
    stale ([invalidate]), write to the console and raise toast
    notifications.  They are embedded in a small state-and-trace monad [M]:
    the state is the query cache (plus the wall clock), the trace is the
    chronological list of observable effects. *)

From Stdlib Require Import ZArith String List Bool Lia DecimalString.
From stdpp Require Import gmap strings list.
Import ListNotations.

Local Open Scope string_scope.
Local Open Scope list_scope.

(** ** Remote records held in the cache *)

(** A JavaScript [Date], as milliseconds since the epoch. *)
Definition Date : Type := Z.

(** The fields of an action record that the handlers touch
    ([id], [name], [dueDate : Date | null]). *)
Record Action : Type := mkAction {
  a_id : string;
  a_name : string;
  a_dueDate : option Date
}.

(** [{ ...action, dueDate: d }] *)
Definition set_dueDate (d : option Date) (a : Action) : Action :=
  {| a_id := a_id a; a_name := a_name a; a_dueDate := d |}.

(** [Outcome = RouterOutputs["outcome"]["getMyOutcomes"][0]], with the
    fields spelled out by the [tempOutcome] literal. *)
Record Outcome : Type := mkOutcome {
  o_id : string;
  o_description : string;
  o_type : string;
  o_dueDate : option Date;
  o_completedDate : option Date;
  o_status : string;
  o_createdById : string;
  o_createdAt : Date;
  o_updatedAt : Date;
  o_goals : list string;
  o_projects : list string
}.

(** The object literal
    [{ id, description, dueDate, userId: null, type, projectId }]
    that the optimistic writes put into a project's [outcomes]. *)
Record OutcomeSummary : Type := mkSummary {
  s_id : string;
  s_description : string;
  s_dueDate : option Date;
  s_userId : option string;
  s_type : string;
  s_projectId : string
}.

(** An element of a cached project's [outcomes] array: either the summary
    literal above, or a whole [Outcome] (what [onSuccess] concatenates). *)
Inductive ProjectOutcome : Type :=
| Summary (s : OutcomeSummary)
| Whole (o : Outcome).

Definition po_id (po : ProjectOutcome) : string :=
  match po with
  | Summary s => s_id s
  | Whole o => o_id o
  end.

Record Project : Type := mkProject {
  p_id : string;
  p_name : string;
  p_status : string;
  p_priority : string;
  p_outcomes : list ProjectOutcome
}.

(** [{ ...p, outcomes: os }] *)
Definition set_outcomes (os : list ProjectOutcome) (p : Project) : Project :=
  {| p_id := p_id p; p_name := p_name p; p_status := p_status p;
     p_priority := p_priority p; p_outcomes := os |}.

(** ** The query cache *)

(** One field per cached query the components use; [None] is a query
    without data ([getData()] returns [undefined]).  The project action
    list is a family of queries indexed by the [projectId] input. *)
Record Cache : Type := mkCache {
  action_getAll : option (list Action);
  action_getToday : option (list Action);
  action_getProjectActions : gmap string (list Action);
  outcome_getMyOutcomes : option (list Outcome);
  project_getActiveWithDetails : option (list Project);
  project_getAll : option (list Project)
}.

Inductive QueryKey : Type :=
| QActionGetAll
| QActionGetToday
| QActionGetProjectActions (projectId : string)
| QOutcomeGetMyOutcomes
| QProjectGetActiveWithDetails
| QProjectGetAll.

#[global] Instance QueryKey_eq_dec : EqDecision QueryKey.
Proof. solve_decision. Defined.



(** ** Mutation inputs and errors *)

(** [api.action.update] input as the handlers use it: [{ id, dueDate? }]. *)
Record UpdateActionInput : Type := mkUpdateAction {
  ua_id : string;
  ua_dueDate : option Date
}.

(** [api.outcome.createOutcome] input: [{ description, type }]. *)
Record CreateOutcomeInput : Type := mkCreateOutcome {
  co_description : string;
  co_type : string
}.

(** [api.project.update] input:
    [{ id, name, status, priority, outcomeIds? }]. *)
Record UpdateProjectInput : Type := mkUpdateProject {
  up_id : string;
  up_name : string;
  up_status : string;
  up_priority : string;
  up_outcomeIds : option (list string)
}.

(** The error a rejected mutation carries: an [Error] with a [message]. *)
Record TRPCError : Type := mkError { err_message : string }.

(** A value caught by a [catch] clause: an [Error] or anything else. *)
Inductive Thrown : Type :=
| ThrownError (message : string)
| ThrownOther.

Inductive MutationCall : Type :=
| ActionUpdate (v : UpdateActionInput)
| OutcomeCreate (v : CreateOutcomeInput)
| ProjectUpdate (v : UpdateProjectInput).

(** ** Observable effects *)

Inductive ConsoleLevel : Type := ConsoleLog | ConsoleError.

Inductive AutoClose : Type :=
| AutoCloseOff
| AutoCloseAfter (ms : Z).

(** The argument of [notifications.show] / [notifications.update]. *)
Record Notification : Type := mkNotification {
  n_id : option string;
  n_title : string;
  n_message : string;
  n_color : option string;
  n_loading : option bool;
  n_autoClose : option AutoClose;
  n_icon : option string
}.

Inductive Event : Type :=
| EvConsole (lvl : ConsoleLevel) (msg : string)
| EvCancel (q : QueryKey)
| EvSetData (q : QueryKey)
| EvInvalidate (q : QueryKey)
| EvNotifyShow (n : Notification)
| EvNotifyUpdate (n : Notification)
| EvMutationStart (c : MutationCall)
| EvRequestSent (c : MutationCall)
| EvMutationSettled (c : MutationCall) (ok : bool)
| EvMutate (c : MutationCall)
| EvDelay (ms : Z)
| EvSearchChange (value : string).

(** ** The monad of the handlers *)

Record World : Type := mkWorld {
  cache : Cache;
  clock : Z
}.

Definition M (A : Type) : Type := World -> A * World * list Event.

Definition ret {A : Type} (a : A) : M A := fun w => (a, w, []).

Definition bind {A B : Type} (m : M A) (k : A -> M B) : M B :=
  fun w =>
    let r1 := m w in
    let r2 := k (fst (fst r1)) (snd (fst r1)) in
    (fst (fst r2), snd (fst r2), snd r1 ++ snd r2).

Declare Scope handler_scope.
Delimit Scope handler_scope with handler.
Notation "x <- c1 ;; c2" := (bind c1 (fun x => c2))
  (at level 100, c1 at next level, right associativity) : handler_scope.
Notation "c1 ;; c2" := (bind c1 (fun _ => c2))
  (at level 100, right associativity) : handler_scope.
Local Open Scope handler_scope.

(** Projections of a run. *)
Definition result {A : Type} (r : A * World * list Event) : A := fst (fst r).
Definition world {A : Type} (r : A * World * list Event) : World := snd (fst r).
Definition events {A : Type} (r : A * World * list Event) : list Event := snd r.

Definition emit (e : Event) : M unit := fun w => (tt, w, [e]).

(** [Date.now()] *)
Definition Date_now : M Z := fun w => (clock w, w, []).

(** [await new Promise(resolve => setTimeout(resolve, ms))] *)
Definition sleep (ms : Z) : M unit :=
  fun w => (tt, {| cache := cache w; clock := (clock w + ms)%Z |}, [EvDelay ms]).

(** Console calls are recorded by level and first argument; the objects
    passed as further arguments are not recorded. *)
Definition console_log (msg : string) : M unit :=
  emit (EvConsole ConsoleLog msg).
Definition console_error (msg : string) : M unit :=
  emit (EvConsole ConsoleError msg).

Definition notifications_show (n : Notification) : M unit :=
  emit (EvNotifyShow n).
Definition notifications_update (n : Notification) : M unit :=
  emit (EvNotifyUpdate n).

(** *** [utils.<router>.<procedure>]: typed handles on cached queries *)

Record Query (T : Type) : Type := mkQuery {
  q_key : QueryKey;
  q_get : Cache -> option T;
  q_put : T -> Cache -> Cache
}.
Arguments q_key {T} _.
Arguments q_get {T} _ _.
Arguments q_put {T} _ _ _.

Definition utils_action_getAll : Query (list Action) :=
  {| q_key := QActionGetAll;
     q_get := action_getAll;
     q_put := fun v c =>
       mkCache (Some v) (action_getToday c) (action_getProjectActions c)
               (outcome_getMyOutcomes c) (project_getActiveWithDetails c)
               (project_getAll c) |}.

Definition utils_action_getToday : Query (list Action) :=
  {| q_key := QActionGetToday;
     q_get := action_getToday;
     q_put := fun v c =>
       mkCache (action_getAll c) (Some v) (action_getProjectActions c)
               (outcome_getMyOutcomes c) (project_getActiveWithDetails c)
               (project_getAll c) |}.

Definition utils_action_getProjectActions (projectId : string)
  : Query (list Action) :=
  {| q_key := QActionGetProjectActions projectId;
     q_get := fun c => action_getProjectActions c !! projectId;
     q_put := fun v c =>
       mkCache (action_getAll c) (action_getToday c)
               (<[projectId := v]> (action_getProjectActions c))
               (outcome_getMyOutcomes c) (project_getActiveWithDetails c)
               (project_getAll c) |}.

Definition utils_outcome_getMyOutcomes : Query (list Outcome) :=
  {| q_key := QOutcomeGetMyOutcomes;
     q_get := outcome_getMyOutcomes;
     q_put := fun v c =>
       mkCache (action_getAll c) (action_getToday c) (action_getProjectActions c)
               (Some v) (project_getActiveWithDetails c) (project_getAll c) |}.

Definition utils_project_getActiveWithDetails : Query (list Project) :=
  {| q_key := QProjectGetActiveWithDetails;
     q_get := project_getActiveWithDetails;
     q_put := fun v c =>
       mkCache (action_getAll c) (action_getToday c) (action_getProjectActions c)
               (outcome_getMyOutcomes c) (Some v) (project_getAll c) |}.

Definition utils_project_getAll : Query (list Project) :=
  {| q_key := QProjectGetAll;
     q_get := project_getAll;
     q_put := fun v c =>
       mkCache (action_getAll c) (action_getToday c) (action_getProjectActions c)
               (outcome_getMyOutcomes c) (project_getActiveWithDetails c)
               (Some v) |}.

(** [q.getData()] *)
Definition getData {T : Type} (q : Query T) : M (option T) :=
  fun w => (q_get q (cache w), w, []).

(** [q.setData(undefined, value)]: the cache entry is overwritten. *)
Definition setData {T : Type} (q : Query T) (v : T) : M unit :=
  fun w => (tt, {| cache := q_put q v (cache w); clock := clock w |},
            [EvSetData (q_key q)]).

(** [q.setData(undefined, (old) => ...)]: the updater runs on the current
    data (and may log); when it returns [undefined] the cache entry is not
    written. *)
Definition setDataWith {T : Type} (q : Query T)
    (updater : option T -> M (option T)) : M unit :=
  old <- getData q ;;
  new <- updater old ;;
  match new with
  | Some v => setData q v
  | None => ret tt
  end.

(** [q.invalidate()]: the query is marked stale.  The refetch this
    triggers is a later network round trip and is not part of a handler. *)
Definition invalidate {T : Type} (q : Query T) : M unit :=
  emit (EvInvalidate (q_key q)).

(** [await q.cancel()]: outgoing refetches are cancelled; no data changes. *)
Definition cancel {T : Type} (q : Query T) : M unit :=
  emit (EvCancel (q_key q)).

(** ** JavaScript helpers *)

(** [s.includes(needle)] on strings. *)
Fixpoint includes (needle s : string) : bool :=
  String.prefix needle s ||
  match s with
  | EmptyString => false
  | String _ s' => includes needle s'
  end.

(** [s || fallback] on strings: the empty string is falsy. *)
Definition orElse (s fallback : string) : string :=
  match s with
  | EmptyString => fallback
  | _ => s
  end.

(** A string used as a condition: only the empty string is falsy. *)
Definition truthy (s : string) : bool :=
  match s with
  | EmptyString => false
  | _ => true
  end.

(** [ids.includes(id)] on arrays of strings. *)
Definition array_includes (ids : list string) (id : string) : bool :=
  existsb (String.eqb id) ids.

(** [`${n}`] for a natural number. *)
Definition show_nat (n : nat) : string := NilZero.string_of_uint (Nat.to_uint n).

(** [`${z}`] for an integer. *)
Definition show_Z (z : Z) : string := NilZero.string_of_int (Z.to_int z).

(** [n !== 1 ? 's' : ''] *)
Definition plural (n : nat) : string := if Nat.eqb n 1 then "" else "s".

(** What an identifier denotes where it is read: the value an enclosing
    scope binds it to, or nothing, and then reading it throws. *)
Inductive Binding (T : Type) : Type :=
| Bound (value : T)
| Unbound.
Arguments Bound {T} _.
Arguments Unbound {T}.

(** The [ReferenceError] thrown by reading an identifier that is not bound. *)
Definition ReferenceError (name : string) : TRPCError :=
  mkError (name +:+ " is not defined").

(** ** The mutation lifecycle

    [useMutation(options)] registers four optional callbacks; the components
    give them, the data-fetching library calls them. *)

Inductive Response (D : Type) : Type :=
| Resolved (data : D)
| Rejected (error : TRPCError).
Arguments Resolved {D} _.
Arguments Rejected {D} _.

Record MutationOptions (V D C : Type) : Type := mkMutation {
  onMutate : option (V -> M C);
  onSuccess : option (D -> V -> option C -> M unit);
  onError : option (TRPCError -> V -> option C -> M unit);
  onSettled : option (option D -> option TRPCError -> V -> option C -> M unit)
}.
Arguments onMutate {V D C} _.
Arguments onSuccess {V D C} _.
Arguments onError {V D C} _.
Arguments onSettled {V D C} _.

Definition run_onMutate {V D C : Type} (o : MutationOptions V D C) (v : V)
  : M (option C) :=
  match onMutate o with
  | Some f => c <- f v ;; ret (Some c)
  | None => ret None
  end.

Definition run_onSuccess {V D C : Type} (o : MutationOptions V D C)
    (d : D) (v : V) (ctx : option C) : M unit :=
  match onSuccess o with Some f => f d v ctx | None => ret tt end.

Definition run_onError {V D C : Type} (o : MutationOptions V D C)
    (e : TRPCError) (v : V) (ctx : option C) : M unit :=
  match onError o with Some f => f e v ctx | None => ret tt end.

Definition run_onSettled {V D C : Type} (o : MutationOptions V D C)
    (d : option D) (e : option TRPCError) (v : V) (ctx : option C) : M unit :=
  match onSettled o with Some f => f d e v ctx | None => ret tt end.

(** Modelled from the spec: the lifecycle that the data-fetching library
    gives a mutation (its code is not part of the components).  Following
    section 4.1, steps 1 to 6: [onMutate] runs before the request is sent;
    when the response arrives [onSuccess] or [onError] runs, and then, in
    either case, [onSettled]; [mutateAsync] resolves with the data or
    rejects with the error.  The server's answer is an input. *)
Definition mutateAsync {V D C : Type} (tag : V -> MutationCall)
    (o : MutationOptions V D C) (v : V) (response : Response D)
  : M (Response D) :=
  emit (EvMutationStart (tag v)) ;;
  ctx <- run_onMutate o v ;;
  emit (EvRequestSent (tag v)) ;;
  match response with
  | Resolved d =>
      run_onSuccess o d v ctx ;;
      run_onSettled o (Some d) None v ctx ;;
      emit (EvMutationSettled (tag v) true) ;;
      ret response
  | Rejected e =>
      run_onError o e v ctx ;;
      run_onSettled o None (Some e) v ctx ;;
      emit (EvMutationSettled (tag v) false) ;;
      ret response
  end.

(** A hook whose [onMutate] may throw: it yields the error thrown or the
    context. *)
Record MutationHooks (V D C : Type) : Type := mkHooks {
  hook_onMutate : option (V -> M (TRPCError + C));
  hook_onSuccess : option (D -> V -> option C -> M unit);
  hook_onError : option (TRPCError -> V -> option C -> M unit);
  hook_onSettled : option (option D -> option TRPCError -> V -> option C -> M unit)
}.
Arguments hook_onMutate {V D C} _.
Arguments hook_onSuccess {V D C} _.
Arguments hook_onError {V D C} _.
Arguments hook_onSettled {V D C} _.

(** The callbacks given to one call: [mutate(variables, { onSuccess,
    onError, onSettled })]. *)
Record MutateOptions (V D C : Type) : Type := mkMutateOptions {
  call_onSuccess : option (D -> V -> option C -> M unit);
  call_onError : option (TRPCError -> V -> option C -> M unit);
  call_onSettled : option (option D -> option TRPCError -> V -> option C -> M unit)
}.
Arguments call_onSuccess {V D C} _.
Arguments call_onError {V D C} _.
Arguments call_onSettled {V D C} _.

(** [mutate(variables)], with no callback of its own. *)
Definition noCallbacks {V D C : Type} : MutateOptions V D C :=
  {| call_onSuccess := None; call_onError := None; call_onSettled := None |}.

(** The hooks of options whose [onMutate] does not throw. *)
Definition hooksOf {V D C : Type} (o : MutationOptions V D C) : MutationHooks V D C :=
  {| hook_onMutate :=
       match onMutate o with
       | Some f => Some (fun v => c <- f v ;; ret (inr c))
       | None => None
       end;
     hook_onSuccess := onSuccess o;
     hook_onError := onError o;
     hook_onSettled := onSettled o |}.

Definition callback {A : Type} (f : option A) (run : A -> M unit) : M unit :=
  match f with Some f => run f | None => ret tt end.

(** Modelled from the spec: steps 4 to 6 of section 4.1 for a mutation that
    has its outcome.  The callbacks of the hook run first, then those
    given to the call; the mutation is settled after them. *)
Definition settle {V D C : Type} (tag : V -> MutationCall)
    (h : MutationHooks V D C) (call : MutateOptions V D C) (v : V)
    (ctx : option C) (outcome : Response D) : M unit :=
  match outcome with
  | Resolved d =>
      callback (hook_onSuccess h) (fun f => f d v ctx) ;;
      callback (hook_onSettled h) (fun f => f (Some d) None v ctx) ;;
      callback (call_onSuccess call) (fun f => f d v ctx) ;;
      callback (call_onSettled call) (fun f => f (Some d) None v ctx) ;;
      emit (EvMutationSettled (tag v) true)
  | Rejected e =>
      callback (hook_onError h) (fun f => f e v ctx) ;;
      callback (hook_onSettled h) (fun f => f None (Some e) v ctx) ;;
      callback (call_onError call) (fun f => f e v ctx) ;;
      callback (call_onSettled call) (fun f => f None (Some e) v ctx) ;;
      emit (EvMutationSettled (tag v) false)
  end.

(** Modelled from the spec: the lifecycle of section 4.1 for
    [mutate(variables, options)] on a hook whose [onMutate] may throw.  A
    throw in [onMutate] is a failure of the mutation before step 3: no
    request is sent, and steps 5 and 6 run with the error thrown and
    without a context.  Otherwise the request is sent and the server's
    answer, an input, is the outcome. *)
Definition mutate {V D C : Type} (tag : V -> MutationCall)
    (h : MutationHooks V D C) (call : MutateOptions V D C) (v : V)
    (response : Response D) : M unit :=
  emit (EvMutationStart (tag v)) ;;
  match hook_onMutate h with
  | Some onMutate =>
      started <- onMutate v ;;
      match started with
      | inl thrown => settle tag h call v None (Rejected thrown)
      | inr ctx =>
          emit (EvRequestSent (tag v)) ;;
          settle tag h call v (Some ctx) response
      end
  | None =>
      emit (EvRequestSent (tag v)) ;;
      settle tag h call v None response
  end.

(** ** Component [Actions] (Actions.tsx) *)

Section Actions.

(** The [projectId?] prop, and the runtime's [Date.prototype.toDateString]. *)
Variable projectId : option string.
Variable toDateString : Date -> string.

Record BulkUpdateContext : Type := mkBulkUpdateContext {
  previousData : option (list Action);
  actionId : string;
  mutationStartTime : Z
}.

(** [context?.previousData] *)
Definition context_previousData (context : option BulkUpdateContext)
  : option (list Action) :=
  match context with
  | Some c => previousData c
  | None => None
  end.

(** [bulkUpdateMutation.onMutate], Actions.tsx lines 37-90. *)
Definition bulkUpdateMutation_onMutate (v : UpdateActionInput)
  : M BulkUpdateContext :=
  let id := ua_id v in
  let dueDate := ua_dueDate v in
  mutationStartTime <- Date_now ;;
  console_log ("🔧 [MUTATION DEBUG] onMutate started for action " +:+ id +:+ ":") ;;
  cancel utils_action_getAll ;;
  console_log ("🔧 [MUTATION DEBUG] Cancelled outgoing refetches for action " +:+ id) ;;
  previousData <- getData utils_action_getAll ;;
  console_log ("🔧 [MUTATION DEBUG] Current cache state for action " +:+ id +:+ ":") ;;
  match previousData with
  | Some _ =>
      setDataWith utils_action_getAll (fun old =>
        match old with
        | None =>
            console_log ("🔧 [MUTATION DEBUG] No old cache data for action "
                         +:+ id +:+ ", returning empty array") ;;
            ret (Some [])
        | Some old =>
            let updated :=
              map (fun action =>
                     if String.eqb (a_id action) id
                     then set_dueDate dueDate action
                     else action) old in
            console_log ("🔧 [MUTATION DEBUG] Optimistic update applied for action "
                         +:+ id +:+ ":") ;;
            ret (Some updated)
        end)
  | None =>
      console_log ("🔧 [MUTATION DEBUG] No previous data found in cache for action "
                   +:+ id)
  end ;;
  console_log ("🔧 [MUTATION DEBUG] onMutate completed for action " +:+ id
               +:+ ", duration:") ;;
  ret {| previousData := previousData; actionId := id;
         mutationStartTime := mutationStartTime |}.

(** [bulkUpdateMutation.onError], lines 91-113. *)
Definition bulkUpdateMutation_onError (err : TRPCError)
    (variables : UpdateActionInput) (context : option BulkUpdateContext)
  : M unit :=
  _errorTime <- Date_now ;;
  console_error ("🔧 [MUTATION DEBUG] onError for action "
                 +:+ ua_id variables +:+ ":") ;;
  match context_previousData context with
  | Some previous =>
      setData utils_action_getAll previous ;;
      console_log ("🔧 [MUTATION DEBUG] Rollback completed for action "
                   +:+ ua_id variables)
  | None => ret tt
  end ;;
  notifications_show
    {| n_id := None;
       n_title := "Update Failed";
       n_message := "Failed to update action " +:+ ua_id variables +:+ ": "
                    +:+ orElse (err_message err) "Unknown error";
       n_color := Some "red";
       n_loading := None;
       n_autoClose := None;
       n_icon := None |}.

(** [bulkUpdateMutation.onSettled], lines 114-130. *)
Definition bulkUpdateMutation_onSettled (data : option Action)
    (error : option TRPCError) (variables : UpdateActionInput)
    (context : option BulkUpdateContext) : M unit :=
  _settledTime <- Date_now ;;
  console_log ("🔧 [MUTATION DEBUG] onSettled for action "
               +:+ ua_id variables +:+ ":") ;;
  console_log ("🔧 [MUTATION DEBUG] Starting invalidation for action "
               +:+ ua_id variables) ;;
  invalidate utils_action_getAll ;;
  invalidate utils_action_getToday.

Definition bulkUpdateMutation
  : MutationOptions UpdateActionInput Action BulkUpdateContext :=
  {| onMutate := Some bulkUpdateMutation_onMutate;
     onSuccess := None;
     onError := Some bulkUpdateMutation_onError;
     onSettled := Some bulkUpdateMutation_onSettled |}.

(** One entry of the [results] array of the bulk reschedule loop:
    [{ actionId, success, result?, error? }]. *)
Record RescheduleResult : Type := mkRescheduleResult {
  r_actionId : string;
  r_success : bool;
  r_result : option Action;
  r_error : option string
}.

(** [error instanceof Error ? error.message : 'Unknown error'] *)
Definition errorMessageOf (error : Thrown) : string :=
  match error with
  | ThrownError message => message
  | ThrownOther => "Unknown error"
  end.

(** The test of lines 202-203: the message names a lost connection. *)
Definition isConnectionError (errorMessage : string) : bool :=
  includes "Server has closed the connection" errorMessage
  || includes "Connection reset by peer" errorMessage.

(** [r.error?.includes(...) || r.error?.includes(...)], lines 224-227. *)
Definition hasConnectionError (r : RescheduleResult) : bool :=
  match r_error r with
  | Some e => isConnectionError e
  | None => false
  end.

(** The [for] loop of lines 176-211, from index [i] on; [remaining] is
    [actionIds.slice(i)] and [responses i] is the server's answer to the
    mutation of iteration [i].  A rejected [mutateAsync] throws the error,
    which the inner [catch] receives. *)
Fixpoint rescheduleLoop (date : option Date) (totalCount : nat)
    (responses : nat -> Response Action) (i : nat) (remaining : list string)
    (results : list RescheduleResult) : M (list RescheduleResult) :=
  match remaining with
  | [] => ret results
  | actionId :: rest =>
      let index := i + 1 in
      console_log ("🔧 [BULK DEBUG] Processing mutation " +:+ show_nat index +:+ "/"
                   +:+ show_nat totalCount +:+ " for action " +:+ actionId) ;;
      outcome <- mutateAsync ActionUpdate bulkUpdateMutation
                   {| ua_id := actionId; ua_dueDate := date |} (responses i) ;;
      match outcome with
      | Resolved result =>
          console_log ("🔧 [BULK DEBUG] Mutation " +:+ show_nat index +:+ "/"
                       +:+ show_nat totalCount +:+ " SUCCESS for action "
                       +:+ actionId +:+ ":") ;;
          let results :=
            results ++ [ {| r_actionId := actionId; r_success := true;
                            r_result := Some result; r_error := None |} ] in
          (if Nat.ltb i (totalCount - 1) then sleep 100 else ret tt) ;;
          rescheduleLoop date totalCount responses (S i) rest results
      | Rejected error =>
          let errorMessage := errorMessageOf (ThrownError (err_message error)) in
          console_error ("🔧 [BULK DEBUG] Mutation " +:+ show_nat index +:+ "/"
                         +:+ show_nat totalCount +:+ " FAILED for action "
                         +:+ actionId +:+ ":") ;;
          let results :=
            results ++ [ {| r_actionId := actionId; r_success := false;
                            r_result := None; r_error := Some errorMessage |} ] in
          if isConnectionError errorMessage
          then
            console_error "🔧 [BULK DEBUG] Database connection lost - stopping bulk operation" ;;
            ret results
          else rescheduleLoop date totalCount responses (S i) rest results
      end
  end.

(** The body of the outer [try], lines 171-277; the value is the thrown
    error when the body throws. *)
Definition rescheduleTry (date : option Date) (actionIds : list string)
    (responses : nat -> Response Action) : M (option Thrown) :=
  let totalCount := length actionIds in
  console_log "🔧 [BULK DEBUG] Starting SEQUENTIAL mutations to avoid database connection pool exhaustion..." ;;
  results <- rescheduleLoop date totalCount responses 0 actionIds [] ;;
  console_log "🔧 [BULK DEBUG] All mutations completed:" ;;
  let failedResults := List.filter (fun r => negb (r_success r)) results in
  let successfulResults := List.filter r_success results in
  let connectionErrors := List.filter hasConnectionError failedResults in
  if Nat.ltb 0 (length failedResults)
  then
    console_error "🔧 [BULK DEBUG] Some mutations failed:" ;;
    if Nat.ltb 0 (length connectionErrors)
    then
      ret (Some (ThrownError
        ("Database connection was lost during bulk update. "
         +:+ show_nat (length successfulResults) +:+ " of " +:+ show_nat totalCount
         +:+ " actions were updated successfully. "
         +:+ "Please try again for the remaining "
         +:+ show_nat (length failedResults) +:+ " actions.")))
    else
      ret (Some (ThrownError
        (show_nat (length failedResults) +:+ " out of " +:+ show_nat totalCount
         +:+ " mutations failed")))
  else
    _updatedCache <- getData utils_action_getAll ;;
    console_log "🔧 [BULK DEBUG] Cache state after mutations:" ;;
    let n := length successfulResults in
    let message :=
      match date with
      | Some d => "Successfully rescheduled " +:+ show_nat n +:+ " action"
                  +:+ plural n +:+ " to " +:+ toDateString d
      | None => "Successfully removed due date from " +:+ show_nat n
                +:+ " action" +:+ plural n
      end in
    notifications_update
      {| n_id := Some "bulk-reschedule";
         n_title := match date with
                    | Some _ => "Bulk Reschedule Complete"
                    | None => "Due Date Removed"
                    end;
         n_message := message;
         n_color := Some "green";
         n_loading := Some false;
         n_autoClose := Some (AutoCloseAfter 3000);
       n_icon := None |} ;;
    console_log "🔧 [BULK DEBUG] Starting cache invalidation..." ;;
    invalidate utils_action_getAll ;;
    invalidate utils_action_getToday ;;
    match projectId with
    | Some projectId =>
        if truthy projectId
        then invalidate (utils_action_getProjectActions projectId)
        else ret tt
    | None => ret tt
    end ;;
    console_log "🔧 [BULK DEBUG] Cache invalidation complete" ;;
    ret None.

(** [handleOverdueBulkReschedule], lines 134-297. *)
Definition handleOverdueBulkReschedule (date : option Date)
    (actionIds : list string) (responses : nat -> Response Action) : M unit :=
  _startTime <- Date_now ;;
  console_log "🔧 [BULK DEBUG] handleOverdueBulkReschedule started:" ;;
  if Nat.eqb (length actionIds) 0
  then console_log "🔧 [BULK DEBUG] No actions to reschedule - exiting early"
  else
    let totalCount := length actionIds in
    _currentCache <- getData utils_action_getAll ;;
    console_log "🔧 [BULK DEBUG] Current cache state for selected actions:" ;;
    notifications_show
      {| n_id := Some "bulk-reschedule";
         n_title := "Rescheduling...";
         n_message := "Updating " +:+ show_nat totalCount +:+ " action"
                      +:+ plural totalCount +:+ "...";
         n_color := None;
         n_loading := Some true;
         n_autoClose := Some AutoCloseOff;
       n_icon := None |} ;;
    thrown <- rescheduleTry date actionIds responses ;;
    match thrown with
    | Some error =>
        console_error "🔧 [BULK DEBUG] Bulk reschedule failed:" ;;
        notifications_update
          {| n_id := Some "bulk-reschedule";
             n_title := "Bulk Update Failed";
             n_message := "Failed to update actions. Error: "
                          +:+ errorMessageOf error;
             n_color := Some "red";
             n_loading := Some false;
             n_autoClose := Some (AutoCloseAfter 5000);
       n_icon := None |}
    | None => ret tt
    end ;;
    console_log "🔧 [BULK DEBUG] handleOverdueBulkReschedule finished, total duration:".

(** [bulkDeleteMutation.onError], lines 309-315. *)
Definition bulkDeleteMutation_onError (error : TRPCError) : M unit :=
  notifications_show
    {| n_id := None;
       n_title := "Delete Failed";
       n_message := orElse (err_message error) "Failed to delete overdue actions";
       n_color := Some "red";
       n_loading := None;
       n_autoClose := None;
       n_icon := None |}.

End Actions.

(** ** Component [OutcomeMultiSelect] (CalendarToggleButton.tsx, second module) *)

Section OutcomeMultiSelect.

(** The props the handlers close over.  [onSearchChange] is a callback of
    the parent; calling it is recorded as an event. *)
Variable projectId : string.
Variable projectName : string.
Variable projectStatus : string.
Variable projectPriority : string.
Variable currentOutcomes : list Outcome.

Definition onSearchChange (value : string) : M unit := emit (EvSearchChange value).

(** [outcome => ({ id: outcome.id, description: outcome.description,
    dueDate: outcome.dueDate, userId: null, type: outcome.type,
    projectId: projectId })] *)
Definition summarize (outcome : Outcome) : ProjectOutcome :=
  Summary {| s_id := o_id outcome;
             s_description := o_description outcome;
             s_dueDate := o_dueDate outcome;
             s_userId := None;
             s_type := o_type outcome;
             s_projectId := projectId |}.

(** [(old) => { if (!old) return old;
      return old.map(p => p.id === projectId ? { ...p, outcomes } : p) }] *)
Definition replaceProjectOutcomes (outcomes : list ProjectOutcome)
    (old : option (list Project)) : M (option (list Project)) :=
  match old with
  | None => ret None
  | Some old =>
      ret (Some (map (fun p => if String.eqb (p_id p) projectId
                               then set_outcomes outcomes p
                               else p) old))
  end.

Record UpdateProjectContext : Type := mkUpdateProjectContext {
  previousActiveProjects : option (list Project);
  previousAllProjects : option (list Project)
}.

(** [outcomeIds] where line 78 reads it.  The arrow function given as
    [onMutate] has no parameter, and neither the props and locals of the
    component nor the imports of the module bind the name; the only
    [outcomeIds] of the module is the [const] of line 238, local to the
    body of [createOutcomeMutation.onSuccess]. *)
Definition outcomeIds_in_onMutate : Binding (option (list string)) := Unbound.

(** [updateProject.onMutate], lines 68-118.  It takes no argument.  After
    the two queries are cancelled and read, [if (outcomeIds)] reads the
    unbound identifier and throws; the optimistic write of lines 79-114
    would need a binding. *)
Definition updateProject_onMutate (_variables : UpdateProjectInput)
  : M (TRPCError + UpdateProjectContext) :=
  cancel utils_project_getActiveWithDetails ;;
  cancel utils_project_getAll ;;
  previousActiveProjects <- getData utils_project_getActiveWithDetails ;;
  previousAllProjects <- getData utils_project_getAll ;;
  match outcomeIds_in_onMutate with
  | Unbound => ret (inl (ReferenceError "outcomeIds"))
  | Bound outcomeIds =>
      match outcomeIds with
      | Some outcomeIds =>
          cached <- getData utils_outcome_getMyOutcomes ;;
          let latestAllOutcomes := match cached with Some l => l | None => [] end in
          let updatedOutcomes :=
            List.filter (fun o => array_includes outcomeIds (o_id o))
                        latestAllOutcomes in
          setDataWith utils_project_getActiveWithDetails
            (replaceProjectOutcomes (map summarize updatedOutcomes)) ;;
          setDataWith utils_project_getAll
            (replaceProjectOutcomes (map summarize updatedOutcomes))
      | None => ret tt
      end ;;
      ret (inr {| previousActiveProjects := previousActiveProjects;
                  previousAllProjects := previousAllProjects |})
  end.

(** [updateProject.onError], lines 119-127. *)
Definition updateProject_onError (_err : TRPCError) (_variables : UpdateProjectInput)
    (context : option UpdateProjectContext) : M unit :=
  match context with
  | Some {| previousActiveProjects := Some previous |} =>
      setData utils_project_getActiveWithDetails previous
  | _ => ret tt
  end ;;
  match context with
  | Some {| previousAllProjects := Some previous |} =>
      setData utils_project_getAll previous
  | _ => ret tt
  end.

(** [updateProject.onSettled], lines 128-133. *)
Definition updateProject_onSettled (_data : option Project)
    (_error : option TRPCError) (_variables : UpdateProjectInput)
    (_context : option UpdateProjectContext) : M unit :=
  invalidate utils_project_getActiveWithDetails ;;
  invalidate utils_project_getAll.

Definition updateProject
  : MutationHooks UpdateProjectInput Project UpdateProjectContext :=
  {| hook_onMutate := Some updateProject_onMutate;
     hook_onSuccess := None;
     hook_onError := Some updateProject_onError;
     hook_onSettled := Some updateProject_onSettled |}.

Record CreateOutcomeContext : Type := mkCreateOutcomeContext {
  tempId : string;
  currentOutcomeIds : list string;
  tempOutcome : Outcome
}.

(** [`temp-${Date.now()}`] *)
Definition makeTempId (now : Z) : string := "temp-" +:+ show_Z now.

(** [createOutcomeMutation.onMutate], lines 137-200. *)
Definition createOutcomeMutation_onMutate (v : CreateOutcomeInput)
  : M CreateOutcomeContext :=
  let description := co_description v in
  now <- Date_now ;;
  let tempId := makeTempId now in
  createdAt <- Date_now ;;
  updatedAt <- Date_now ;;
  let tempOutcome :=
    {| o_id := tempId;
       o_description := description;
       o_type := "weekly";
       o_dueDate := None;
       o_completedDate := None;
       o_status := "ACTIVE";
       o_createdById := "";
       o_createdAt := createdAt;
       o_updatedAt := updatedAt;
       o_goals := [];
       o_projects := [] |} in
  setDataWith utils_outcome_getMyOutcomes (fun old =>
    match old with
    | None => ret (Some [tempOutcome])
    | Some old => ret (Some (old ++ [tempOutcome]))
    end) ;;
  let currentOutcomeIds := map o_id currentOutcomes in
  let newOutcomes := currentOutcomes ++ [tempOutcome] in
  setDataWith utils_project_getActiveWithDetails
    (replaceProjectOutcomes (map summarize newOutcomes)) ;;
  setDataWith utils_project_getAll
    (replaceProjectOutcomes (map summarize newOutcomes)) ;;
  onSearchChange "" ;;
  ret {| tempId := tempId; currentOutcomeIds := currentOutcomeIds;
         tempOutcome := tempOutcome |}.

(** [createOutcomeMutation.onSuccess], lines 201-262.  The dependent
    [updateProject.mutate(...)] call is recorded with its input; it runs
    after this handler has returned. *)
Definition createOutcomeMutation_onSuccess (newOutcome : Outcome)
    (_variables : CreateOutcomeInput) (context : option CreateOutcomeContext)
  : M unit :=
  match context with
  | Some context =>
      let tempId := tempId context in
      let currentOutcomeIds := currentOutcomeIds context in
      setDataWith utils_outcome_getMyOutcomes (fun old =>
        match old with
        | None => ret (Some [newOutcome])
        | Some old =>
            ret (Some (map (fun o => if String.eqb (o_id o) tempId
                                     then newOutcome else o) old))
        end) ;;
      active <- getData utils_project_getActiveWithDetails ;;
      let currentProject :=
        match active with
        | Some ps => List.find (fun p => String.eqb (p_id p) projectId) ps
        | None => None
        end in
      let projectOutcomes :=
        match currentProject with
        | Some p => p_outcomes p
        | None => []
        end in
      let updatedOutcomes :=
        List.filter (fun o => negb (String.eqb (po_id o) tempId)) projectOutcomes
        ++ [Whole newOutcome] in
      setDataWith utils_project_getActiveWithDetails
        (replaceProjectOutcomes updatedOutcomes) ;;
      setDataWith utils_project_getAll
        (replaceProjectOutcomes updatedOutcomes) ;;
      let outcomeIds := currentOutcomeIds ++ [o_id newOutcome] in
      emit (EvMutate (ProjectUpdate
        {| up_id := projectId;
           up_name := projectName;
           up_status := projectStatus;
           up_priority := projectPriority;
           up_outcomeIds := Some outcomeIds |}))
  | None => ret tt
  end.




(** [createOutcomeMutation.onError], lines 263-274. *)
Definition createOutcomeMutation_onError (error : TRPCError)
    (_variables : CreateOutcomeInput) (_context : option CreateOutcomeContext)
  : M unit :=
  invalidate utils_outcome_getMyOutcomes ;;
  invalidate utils_project_getActiveWithDetails ;;
  invalidate utils_project_getAll ;;
  notifications_show
    {| n_id := None;
       n_title := "Failed to create outcome";
       n_message := err_message error;
       n_color := Some "red";
       n_loading := None;
       n_autoClose := None;
       n_icon := None |}.

(** [createOutcomeMutation] registers no [onSettled] (line 275). *)
Definition createOutcomeMutation
  : MutationOptions CreateOutcomeInput Outcome CreateOutcomeContext :=
  {| onMutate := Some createOutcomeMutation_onMutate;
     onSuccess := Some createOutcomeMutation_onSuccess;
     onError := Some createOutcomeMutation_onError;
     onSettled := None |}.

End OutcomeMultiSelect.

(** ** Component [TokensPage] (tokens/page.tsx) *)

(** [generateToken.onError], lines 66-73. *)
Definition generateToken_onError (error : TRPCError) : M unit :=
  notifications_show
    {| n_id := None;
       n_title := "Error";
       n_message := orElse (err_message error) "Failed to generate API key";
       n_color := Some "red";
       n_loading := None;
       n_autoClose := None;
       n_icon := Some "IconAlertCircle" |}.

(** [revokeToken.onError], lines 86-93. *)
Definition revokeToken_onError (error : TRPCError) : M unit :=
  notifications_show
    {| n_id := None;
       n_title := "Error";
       n_message := orElse (err_message error) "Failed to revoke API key";
       n_color := Some "red";
       n_loading := None;
       n_autoClose := None;
       n_icon := Some "IconAlertCircle" |}.

(** ** Reading a trace *)

Definition isWrite (e : Event) : bool :=
  match e with EvSetData _ => true | _ => false end.

Definition isConsole (e : Event) : bool :=
  match e with EvConsole _ _ => true | _ => false end.

Definition isNotification (e : Event) : bool :=
  match e with EvNotifyShow _ | EvNotifyUpdate _ => true | _ => false end.

(** Events of a mutation being issued, sent or settled. *)
Definition isMutationEvent (e : Event) : bool :=
  match e with
  | EvMutationStart _ | EvRequestSent _ | EvMutationSettled _ _ | EvMutate _ => true
  | _ => false
  end.

Definition isInvalidationOf (q : QueryKey) (e : Event) : bool :=
  match e with EvInvalidate q' => bool_decide (q' = q) | _ => false end.

(** How often a trace marks query [q] stale. *)
Definition invalidations (q : QueryKey) (t : list Event) : nat :=
  length (List.filter (isInvalidationOf q) t).

Definition isRequestSent (e : Event) : bool :=
  match e with EvRequestSent _ => true | _ => false end.

(** How many requests a trace sends to the server. *)
Definition requestsSent (t : list Event) : nat :=
  length (List.filter isRequestSent t).

Definition isSettled (e : Event) : bool :=
  match e with EvMutationSettled _ _ => true | _ => false end.

(** How many mutations settle in a trace. *)
Definition settledMutations (t : list Event) : nat :=
  length (List.filter isSettled t).

(** The toasts raised with [notifications.show], in order. *)
Fixpoint shown (t : list Event) : list Notification :=
  match t with
  | [] => []
  | EvNotifyShow n :: t' => n :: shown t'
  | _ :: t' => shown t'
  end.

(** The console calls of a trace, as (level, message). *)
Fixpoint consoleCalls (t : list Event) : list (ConsoleLevel * string) :=
  match t with
  | [] => []
  | EvConsole lvl msg :: t' => (lvl, msg) :: consoleCalls t'
  | _ :: t' => consoleCalls t'
  end.

(** The mutations a handler issues with [mutate], in order. *)
Fixpoint mutateCalls (t : list Event) : list MutationCall :=
  match t with
  | [] => []
  | EvMutate c :: t' => c :: mutateCalls t'
  | _ :: t' => mutateCalls t'
  end.

(** ** The optimistic mutations and their failure paths *)





(** Every mutation of the three components that registers an [onError]
    handler, with the arguments the handler receives. *)
Inductive FailedMutation : Type :=
| FailedActionUpdate (variables : UpdateActionInput)
                     (context : option BulkUpdateContext)
| FailedBulkDelete
| FailedProjectUpdate (variables : UpdateProjectInput)
                      (context : option UpdateProjectContext)
| FailedOutcomeCreate (variables : CreateOutcomeInput)
                      (context : option CreateOutcomeContext)
| FailedGenerateToken
| FailedRevokeToken.

Definition errorHandler (m : FailedMutation) (e : TRPCError) : M unit :=
  match m with
  | FailedActionUpdate variables context =>
      bulkUpdateMutation_onError e variables context
  | FailedBulkDelete => bulkDeleteMutation_onError e
  | FailedProjectUpdate variables context =>
      updateProject_onError e variables context
  | FailedOutcomeCreate variables context =>
      createOutcomeMutation_onError e variables context
  | FailedGenerateToken => generateToken_onError e
  | FailedRevokeToken => revokeToken_onError e
  end.

(** The failure is written to the console. *)
Definition loggedToConsole (t : list Event) : bool := existsb isConsole t.

(** A toast is shown whose message contains the error's own message. *)
Definition toastCarries (e : TRPCError) (t : list Event) : bool :=
  existsb (fun n => includes (err_message e) (n_message n)) (shown t).

(** The failure raises a toast that carries the error's message, and writes
    nothing to the console. *)
Definition toastOnly (m : FailedMutation) (e : TRPCError) (w : World) : Prop :=
  toastCarries e (events (errorHandler m e w)) = true
  /\ loggedToConsole (events (errorHandler m e w)) = false.

(** ** Sample states *)

Definition emptyCache : Cache := mkCache None None ∅ None None None.

Definition emptyWorld : World := mkWorld emptyCache 1700000000000.

Definition sampleAction : Action :=
  mkAction "a1" "Write report" (Some 1699900000000%Z).


(** ** The bulk reschedule loop, seen from outside *)

(** The [results] entries pushed by the loop. *)
Definition okEntry (actionId : string) (result : Action) : RescheduleResult :=
  {| r_actionId := actionId; r_success := true;
     r_result := Some result; r_error := None |}.

Definition failEntry (actionId : string) (error : TRPCError) : RescheduleResult :=
  {| r_actionId := actionId; r_success := false;
     r_result := None; r_error := Some (err_message error) |}.

(** The world after the pause of iteration [i], if there is one. *)
Definition afterPause (totalCount i : nat) (w : World) : World :=
  if Nat.ltb i (totalCount - 1) then world (sleep 100 w) else w.

(** The mutation succeeded. *)
Definition isResolved {D : Type} (response : Response D) : bool :=
  match response with Resolved _ => true | Rejected _ => false end.

(** The answer to iteration [i] makes the loop [break]. *)
Definition stops (response : Response Action) : bool :=
  match response with
  | Resolved _ => false
  | Rejected e => isConnectionError (err_message e)
  end.

(** What the scheduling of the action updates looks like in a trace. *)
Inductive Step : Type :=
| Started (actionId : string)
| Settled (actionId : string) (ok : bool)
| Paused (ms : Z).

Fixpoint schedule (t : list Event) : list Step :=
  match t with
  | [] => []
  | EvMutationStart (ActionUpdate v) :: t' => Started (ua_id v) :: schedule t'
  | EvMutationSettled (ActionUpdate v) ok :: t' =>
      Settled (ua_id v) ok :: schedule t'
  | EvDelay ms :: t' => Paused ms :: schedule t'
  | _ :: t' => schedule t'
  end.

(** The action ids whose update mutation a trace starts, in order. *)
Fixpoint issued (t : list Event) : list string :=
  match t with
  | [] => []
  | EvMutationStart (ActionUpdate v) :: t' => ua_id v :: issued t'
  | _ :: t' => issued t'
  end.

(** Each mutation settles before the next one starts. *)
Fixpoint oneAtATime (s : list Step) : bool :=
  match s with
  | [] => true
  | Started a :: Settled b _ :: rest => String.eqb a b && oneAtATime rest
  | Paused _ :: rest => oneAtATime rest
  | _ => false
  end.

(** Each mutation settles before the next one starts, and a pause of
    [ms] milliseconds separates any two consecutive mutations. *)
Fixpoint spacedBy (ms : Z) (s : list Step) : bool :=
  match s with
  | [] => true
  | Started a :: Settled b _ :: rest =>
      String.eqb a b &&
      match rest with
      | [] => true
      | Paused d :: (Started _ :: _) as rest' => Z.eqb d ms && spacedBy ms rest'
      | _ => false
      end
  | _ => false
  end.

Definition isFailedSettle (e : Event) : bool :=
  match e with EvMutationSettled _ false => true | _ => false end.

(** How many mutations of a trace settle with an error. *)
Definition failedMutations (t : list Event) : nat :=
  length (List.filter isFailedSettle t).

(** ** What a snapshot covers *)



(** ** Where an outcome id occurs *)

Definition hasOutcome (id : string) (l : list Outcome) : bool :=
  existsb (fun o => String.eqb (o_id o) id) l.

Definition projectHasOutcome (id : string) (p : Project) : bool :=
  existsb (fun o => String.eqb (po_id o) id) (p_outcomes p).

(** An outcome with identifier [id] occurs in the user's outcome list. *)
Definition inOutcomeList (id : string) (c : Cache) : bool :=
  match outcome_getMyOutcomes c with
  | Some l => hasOutcome id l
  | None => false
  end.

(** An outcome with identifier [id] occurs in some project of a list. *)
Definition inProjects (id : string) (ps : option (list Project)) : bool :=
  match ps with
  | Some ps => existsb (projectHasOutcome id) ps
  | None => false
  end.

(** An outcome with identifier [id] occurs in one of the three cached views
    of outcomes. *)
Definition mentionsOutcome (id : string) (c : Cache) : bool :=
  inOutcomeList id c
  || inProjects id (project_getActiveWithDetails c)
  || inProjects id (project_getAll c).

(** ** More sample data *)

Definition sampleDateString (d : Date) : string := "Tue Nov 14 2023".

Definition otherAction : Action := mkAction "a2" "Call supplier" None.

Definition twoActionsWorld : World :=
  mkWorld (mkCache (Some [sampleAction; otherAction]) None ∅ None None None)
          1700000000000.

Definition sampleOutcome : Outcome :=
  {| o_id := "out-7"; o_description := "Ship beta"; o_type := "weekly";
     o_dueDate := None; o_completedDate := None; o_status := "ACTIVE";
     o_createdById := "u1"; o_createdAt := 1700000000500%Z;
     o_updatedAt := 1700000000500%Z; o_goals := []; o_projects := [] |}.

Definition sampleProject : Project := mkProject "p1" "Launch" "ACTIVE" "HIGH" [].

Definition otherProject : Project := mkProject "p2" "Hiring" "ACTIVE" "LOW" [].

Definition projectsWorld : World :=
  mkWorld (mkCache None None ∅ (Some []) (Some [sampleProject; otherProject])
                   (Some [sampleProject; otherProject]))
          1700000000000.

(** A cache whose project lists hold data, but not the project [p1]. *)
Definition withoutProjectWorld : World :=
  mkWorld (mkCache None None ∅ (Some []) (Some [otherProject]) (Some [otherProject]))
          1700000000000.

(** The first mutation fails with an ordinary error, the others succeed. *)
Definition firstFails (i : nat) : Response Action :=
  match i with
  | 0 => Rejected (mkError "boom")
  | _ => Resolved sampleAction
  end.

(** The first mutation fails because the connection is lost. *)
Definition connectionDrops (i : nat) : Response Action :=
  match i with
  | 0 => Rejected (mkError "Error: Connection reset by peer (os error 104)")
  | _ => Resolved sampleAction
  end.

Definition allSucceed (i : nat) : Response Action := Resolved sampleAction.

(** No mutation of the loop has failed: [failedResults.length > 0] is false. *)
Definition noFailure (results : list RescheduleResult) : bool :=
  negb (Nat.ltb 0 (length (List.filter (fun r => negb (r_success r)) results))).

(** A piece of trace in which no mutation starts, settles or pauses. *)
Definition quiet (t : list Event) : Prop :=
  schedule t = [] /\ issued t = []
  /\ settledMutations t = 0 /\ failedMutations t = 0.

(** The run of the update mutation of iteration [i]. *)
Definition iterationUpdate (date : option Date)
    (responses : nat -> Response Action) (actionId : string) (i : nat)
  : M (Response Action) :=
  mutateAsync ActionUpdate bulkUpdateMutation
    {| ua_id := actionId; ua_dueDate := date |} (responses i).

(** The first console line of iteration [i]. *)
Definition processingLine (totalCount : nat) (actionId : string) (i : nat)
  : Event :=
  EvConsole ConsoleLog
    ("🔧 [BULK DEBUG] Processing mutation " +:+ show_nat (i + 1) +:+ "/"
     +:+ show_nat totalCount +:+ " for action " +:+ actionId).

(** ** The cache updaters of [OutcomeMultiSelect], by name *)

(** [p => p.id === projectId ? { ...p, outcomes } : p] *)
Definition withOutcomes (projectId : string) (outcomes : list ProjectOutcome)
    (p : Project) : Project :=
  if String.eqb (p_id p) projectId then set_outcomes outcomes p else p.

(** [o => o.id === tempId ? newOutcome : o] *)
Definition replaceOutcome (tempId : string) (newOutcome : Outcome) (o : Outcome)
  : Outcome :=
  if String.eqb (o_id o) tempId then newOutcome else o.

(** [projectOutcomes.filter(o => o.id !== tempId).concat(newOutcome)] *)
Definition withoutTemp (tempId : string) (newOutcome : Outcome)
    (projectOutcomes : list ProjectOutcome) : list ProjectOutcome :=
  List.filter (fun o => negb (String.eqb (po_id o) tempId)) projectOutcomes
  ++ [Whole newOutcome].

(** The list holds a project with identifier [projectId]. *)
Definition hasProject (projectId : string) (ps : list Project) : bool :=
  existsb (fun p => String.eqb (p_id p) projectId) ps.

(** ** More readings of a trace *)

(** The action ids whose update settled successfully, in order. *)
Fixpoint okIds (s : list Step) : list string :=
  match s with
  | [] => []
  | Settled actionId true :: s' => actionId :: okIds s'
  | _ :: s' => okIds s'
  end.

Definition settledOk (t : list Event) : list string := okIds (schedule t).

(** The toasts changed with [notifications.update], in order. *)
Fixpoint updated (t : list Event) : list Notification :=
  match t with
  | [] => []
  | EvNotifyUpdate n :: t' => n :: updated t'
  | _ :: t' => updated t'
  end.

(** [action => action.id === id ? { ...action, dueDate } : action], the
    map of the optimistic write of [bulkUpdateMutation.onMutate]. *)
Definition applyDueDate (id : string) (dueDate : option Date) (action : Action)
  : Action :=
  if String.eqb (a_id action) id then set_dueDate dueDate action else action.

(** An action as the cache shows it once the updates of [ids] are applied. *)
Definition rescheduled (ids : list string) (date : option Date) (action : Action)
  : Action :=
  if array_includes ids (a_id action) then set_dueDate date action else action.

(** The cache with [f] applied to every action of the full action list. *)
Definition cacheWithActions (f : Action -> Action) (c : Cache) : Cache :=
  mkCache (option_map (map f) (action_getAll c)) (action_getToday c)
          (action_getProjectActions c) (outcome_getMyOutcomes c)
          (project_getActiveWithDetails c) (project_getAll c).



(** ** More JavaScript helpers *)

(** [new Set(values)] and [set.add(x)] on strings, kept in insertion order
    (the order in which spreading the set lists its members). *)
Definition Set_add (s : list string) (x : string) : list string :=
  if array_includes s x then s else s ++ [x].

Definition newSet (values : list string) : list string :=
  fold_left Set_add values [].

(** [set.has(x)] *)
Definition Set_has (s : list string) (x : string) : bool := array_includes s x.

(** [s.slice(n)] for [0 <= n]. *)
Fixpoint slice (n : nat) (s : string) : string :=
  match n, s with
  | 0, _ => s
  | S n', String _ s' => slice n' s'
  | S _, EmptyString => EmptyString
  end.

(** [s.replace(pattern, replacement)] with a string pattern and a
    replacement without [$]: the first occurrence is replaced. *)
Fixpoint replaceFirst (pattern replacement s : string) : string :=
  if String.prefix pattern s
  then replacement +:+ slice (String.length pattern) s
  else match s with
       | EmptyString => EmptyString
       | String c s' => String c (replaceFirst pattern replacement s')
       end.

(** The double quote character, as a string. *)
Definition dquote : string :=
  String (Ascii.Ascii false true false false false true false false) EmptyString.

(** ** [OutcomeMultiSelect]: the options of the select and its [onChange] *)

(** An option of the select: [{ value, label }]. *)
Record SelectItem : Type := mkItem {
  item_value : string;
  item_label : string
}.

Section OutcomeMultiSelectView.

(** The runtime's [String.prototype.trim], and the props. *)
Variable trim : string -> string.
Variable projectId : string.
Variable projectName : string.
Variable projectStatus : string.
Variable projectPriority : string.
Variable currentOutcomes : list Outcome.
Variable allOutcomes : list Outcome.
Variable searchValue : string.

(** [outcome => ({ value: outcome.id, label: outcome.description })] *)
Definition toItem (outcome : Outcome) : SelectItem :=
  {| item_value := o_id outcome; item_label := o_description outcome |}.

(** The body of the [forEach] of lines 285-292. *)
Definition addIfMissing (data : list SelectItem) (outcome : Outcome)
  : list SelectItem :=
  match List.find (fun o => String.eqb (item_value o) (o_id outcome)) data with
  | Some _ => data
  | None => data ++ [toItem outcome]
  end.

(** [allOutcomeData] after the [forEach], lines 279-292. *)
Definition allOutcomeData : list SelectItem :=
  fold_left addIfMissing currentOutcomes (map toItem allOutcomes).

(** Lines 295-299. *)
Definition selectedOutcomeIds : list string := newSet (map o_id currentOutcomes).

Definition selectedOutcomes : list SelectItem :=
  map (fun o => {| item_value := item_value o;
                   item_label := "✓ " +:+ item_label o |})
      (List.filter (fun o => Set_has selectedOutcomeIds (item_value o))
                   allOutcomeData).

Definition unselectedOutcomes : list SelectItem :=
  List.filter (fun o => negb (Set_has selectedOutcomeIds (item_value o)))
              allOutcomeData.

(** [[...selectedOutcomes, ...unselectedOutcomes]], line 302. *)
Definition listedOutcomes : list SelectItem :=
  selectedOutcomes ++ unselectedOutcomes.

(** The option pushed by lines 305-310. *)
Definition createOption : SelectItem :=
  {| item_value := "create-" +:+ searchValue;
     item_label := "➕ Create new outcome: " +:+ dquote +:+ searchValue
                   +:+ dquote |}.

(** [outcomeData] as the select receives it. *)
Definition outcomeData : list SelectItem :=
  if truthy (trim searchValue)
  then listedOutcomes ++ [createOption]
  else listedOutcomes.

(** The [onChange] of the select, lines 317-337.  Both mutations are
    started with [mutate]. *)
Definition outcomeSelect_onChange (values : list string) : M unit :=
  let createValue := List.find (fun v => String.prefix "create-" v) values in
  match createValue with
  | Some (String _ _ as createValue) =>
      let outcomeDescription := replaceFirst "create-" "" createValue in
      emit (EvMutate (OutcomeCreate
        {| co_description := outcomeDescription; co_type := "weekly" |}))
  | _ =>
      emit (EvMutate (ProjectUpdate
        {| up_id := projectId;
           up_name := projectName;
           up_status := projectStatus;
           up_priority := projectPriority;
           up_outcomeIds := Some values |}))
  end.

End OutcomeMultiSelectView.

(** ** [GoalsTable] *)

Record LifeDomain : Type := mkLifeDomain {
  ld_title : string
}.

(** A goal as the table reads it. *)
Record Goal : Type := mkGoal {
  g_id : Z;
  g_title : string;
  g_description : option string;
  g_dueDate : option Date;
  g_lifeDomainId : option Z;
  g_lifeDomain : option LifeDomain
}.

(** [goal.lifeDomain?.title] *)
Definition lifeDomainTitle (goal : Goal) : option string :=
  option_map ld_title (g_lifeDomain goal).

(** [titles.filter((title): title is string => !!title)] *)
Fixpoint definedTitles (titles : list (option string)) : list string :=
  match titles with
  | [] => []
  | Some title :: rest =>
      if truthy title then title :: definedTitles rest else definedTitles rest
  | None :: rest => definedTitles rest
  end.

(** date-fns [isBefore(date, dateToCompare)] on timestamps. *)
Definition isBefore (date dateToCompare : Date) : bool := (date <? dateToCompare)%Z.

(** What the component renders: the fallback panel, or the tab values, the
    text shown instead of the table, and the rows of the table when there
    is one. *)
Inductive GoalsView : Type :=
| NoGoalsFound
| GoalsPanel (tabs : list string) (message : option string)
    (table : option (list Goal)).

Definition view_tabs (v : GoalsView) : list string :=
  match v with
  | NoGoalsFound => []
  | GoalsPanel tabs _ _ => tabs
  end.

Definition view_message (v : GoalsView) : option string :=
  match v with
  | NoGoalsFound => Some "No goals found."
  | GoalsPanel _ message _ => message
  end.

Definition view_rows (v : GoalsView) : list Goal :=
  match v with
  | GoalsPanel _ _ (Some rows) => rows
  | _ => []
  end.

Section GoalsTable.

(** [startOfDay(new Date())], the prop and the two pieces of state. *)
Variable today : Date.
Variable goals : option (list Goal).
Variable activeTab : option string.
Variable hidePastDue : bool.

(** Lines 576-582. *)
Definition lifeDomainTitles : list string :=
  match goals with
  | None => []
  | Some goals =>
      let titles := definedTitles (map lifeDomainTitle goals) in
      newSet titles
  end.

(** [activeTab === 'all'] *)
Definition activeTabIsAll : bool :=
  match activeTab with
  | Some tab => String.eqb tab "all"
  | None => false
  end.

(** The predicate of the filter of lines 594-598. *)
Definition goalMatches (goal : Goal) : bool :=
  let domainMatch :=
    activeTabIsAll
    || match lifeDomainTitle goal, activeTab with
       | Some title, Some tab => String.eqb title tab
       | _, _ => false
       end in
  let dateMatch :=
    negb hidePastDue
    || match g_dueDate goal with
       | None => true
       | Some dueDate => negb (isBefore dueDate today)
       end in
  domainMatch && dateMatch.

Definition filteredGoals (goals : list Goal) : list Goal :=
  List.filter goalMatches goals.

(** The component, lines 584-678. *)
Definition GoalsTable : GoalsView :=
  match goals with
  | None => NoGoalsFound
  | Some goals =>
      let filteredGoals := filteredGoals goals in
      GoalsPanel
        ("all" :: lifeDomainTitles)
        (if Nat.eqb (length filteredGoals) 0
         then Some (if activeTabIsAll && negb hidePastDue
                    then "No goals yet. Create your first one!"
                    else "No goals match the current filters.")
         else None)
        (if Nat.ltb 0 (length filteredGoals) then Some filteredGoals else None)
  end.

End GoalsTable.

(** The state of the first render: [useState('all')], [useState(true)]. *)
Definition initialTab : option string := Some "all".
Definition initialHidePastDue : bool := true.

Definition sampleGoals : list Goal :=
  [ mkGoal 1 "Run a marathon" None (Some 1600000000000%Z) (Some 7%Z)
      (Some (mkLifeDomain "Health"));
    mkGoal 2 "Write a book" None None None None ].

(** ** [UnifiedDatePicker] *)

(** The options given to [toLocaleDateString]. *)
Record DateFormat : Type := mkDateFormat {
  fmt_weekday : option string;
  fmt_day : option string;
  fmt_month : option string
}.

Inductive PickerMode : Type := Single | Bulk.

(** The argument of [notifications.show] in the picker. *)
Record PickerToast : Type := mkPickerToast {
  pt_title : string;
  pt_message : string;
  pt_color : string;
  pt_icon : option string;
  pt_withBorder : bool
}.

(** The calls a handler of the picker makes, in order: the props [onChange]
    and [onClear], the state setters, and the toast. *)
Inductive PickerEvent : Type :=
| PkOnChange (date : option Date)
| PkSetOpened (opened : bool)
| PkOnClear
| PkSetCalendarDate (date : option Date)
| PkNotify (n : PickerToast).

Definition isPickerToast (e : PickerEvent) : bool :=
  match e with PkNotify _ => true | _ => false end.

(** Whether an event takes the date away from the owner of the picker. *)
Definition clearsDate (e : PickerEvent) : bool :=
  match e with
  | PkOnChange None | PkOnClear => true
  | _ => false
  end.

(** [s.charAt(0)] *)
Definition charAt0 (s : string) : string :=
  match s with
  | String c _ => String c EmptyString
  | EmptyString => EmptyString
  end.

Section DateHelpers.

(** The local-time accessors of [Date]: [getDay], [getDate], and
    [setDate] returning the date it leaves in the object. *)
Variable getDay : Date -> Z.
Variable getDate : Date -> Z.
Variable setDate : Z -> Date -> Date.

(** [getNextWeekDate], lines 814-818, at time [now]. *)
Definition getNextWeekDate (now : Date) : Date :=
  setDate (getDate now + 7) now.

(** [date.setDate(date.getDate() + 1)] *)
Definition nextDay (date : Date) : Date := setDate (getDate date + 1) date.

(** The [while] loop of [getNextWeekendDate]; [None] when the fuel runs
    out before the loop ends. *)
Fixpoint untilSaturday (fuel : nat) (date : Date) : option Date :=
  if (getDay date =? 6)%Z
  then Some date
  else match fuel with
       | O => None
       | S fuel => untilSaturday fuel (nextDay date)
       end.

(** [getNextWeekendDate], lines 820-826, at time [now]. *)
Definition getNextWeekendDate (fuel : nat) (now : Date) : option Date :=
  untilSaturday fuel now.

End DateHelpers.

Section UnifiedDatePicker.

(** [date.toLocaleDateString("en-US", options)] and
    [String.prototype.toUpperCase], then the props; [onClear] tells whether
    the callback was provided. *)
Variable toLocaleDateString : Date -> DateFormat -> string.
Variable toUpperCase : string -> string.
Variable mode : PickerMode.
Variable selectedCount : nat.
Variable notificationContext : string.
Variable onClear : bool.

Definition isBulkMode : bool :=
  match mode with Bulk => true | Single => false end.

Definition longFormat : DateFormat :=
  {| fmt_weekday := Some "long"; fmt_day := Some "numeric";
     fmt_month := Some "long" |}.

(** The toast of [handleDateSelect], lines 872-913. *)
Definition dateSelectToast (date : option Date) : PickerToast :=
  if isBulkMode
  then match date with
       | Some date =>
           {| pt_title := "Bulk Reschedule";
              pt_message := show_nat selectedCount +:+ " " +:+ notificationContext
                            +:+ plural selectedCount +:+ " will be rescheduled to "
                            +:+ toLocaleDateString date longFormat;
              pt_color := "blue";
              pt_icon := None;
              pt_withBorder := true |}
       | None =>
           {| pt_title := "Date Removed";
              pt_message := "Due date will be removed from "
                            +:+ show_nat selectedCount +:+ " " +:+ notificationContext
                            +:+ plural selectedCount;
              pt_color := "gray";
              pt_icon := None;
              pt_withBorder := true |}
       end
  else {| pt_title := "Date Updated";
          pt_message :=
            match date with
            | Some date =>
                (toUpperCase (charAt0 notificationContext)
                 +:+ slice 1 notificationContext) +:+ " scheduled for "
                +:+ toLocaleDateString date longFormat
            | None => "Date removed from " +:+ notificationContext
            end;
          pt_color := match date with Some _ => "blue" | None => "gray" end;
          pt_icon := Some (match date with Some _ => "📅" | None => "⭕" end);
          pt_withBorder := true |}.

(** [handleDateSelect], lines 862-914. *)
Definition handleDateSelect (date : option Date) : list PickerEvent :=
  [PkOnChange date; PkSetOpened false]
  ++ (match date with
      | None => if onClear then [PkOnClear] else []
      | Some _ => []
      end)
  ++ [PkNotify (dateSelectToast date)].

(** [handleCalendarSelect], lines 916-920. *)
Definition handleCalendarSelect (date : option Date) : list PickerEvent :=
  match date with
  | Some date => handleDateSelect (Some date)
  | None => []
  end.

(** The [onChange] of the calendar, lines 1025-1030. *)
Definition calendar_onChange (date : option Date) : list PickerEvent :=
  PkSetCalendarDate date
  :: match date with
     | Some date => handleCalendarSelect (Some date)
     | None => []
     end.

End UnifiedDatePicker.

(** A calendar without months, for examples: a date is its count of
    milliseconds, the day of the month is the count of days. *)
Definition msPerDay : Z := 86400000.
Definition plainGetDay (d : Date) : Z := ((d / msPerDay + 4) mod 7)%Z.
Definition plainGetDate (d : Date) : Z := (d / msPerDay)%Z.
Definition plainSetDate (n : Z) (d : Date) : Date :=
  (n * msPerDay + d mod msPerDay)%Z.

(** ** The route handler [GET] (second module of tokens/page.tsx) *)

(** The payload [jwt.verify] returns, as the handler reads it. *)
Record Decoded : Type := mkDecoded {
  d_userId : option string;
  d_sub : option string
}.

Record ProjectInfo : Type := mkProjectInfo {
  pi_name : string
}.

(** The result of [getAllProjectsTool.execute], as the handler reads it.
    A result the handler cannot read ([result.projects] missing) makes the
    evaluation of line 402 throw before anything more is logged; that run
    is the one where [execute] itself throws. *)
Record ToolResult : Type := mkToolResult {
  tr_total : Z;
  tr_projects : list ProjectInfo
}.

(** The JSON bodies the handler answers with. *)
Inductive ApiBody : Type :=
| BodyAuthorizationRequired (error : string)
| BodySuccess (result : ToolResult) (message : string)
| BodyFailure (error : string) (message : string).

(** [Response.json(body, { status })]; the status is 200 when not given. *)
Record ApiResponse : Type := mkApiResponse {
  status : Z;
  body : ApiBody
}.

(** The observable steps of the handler.  A console call is recorded with
    its first argument. *)
Inductive ApiEvent : Type :=
| ApiConsole (lvl : ConsoleLevel) (msg : string)
| ApiVerify (token secret : string)
| ApiImport
| ApiExecute (authToken : string).

Definition isApiConsole (e : ApiEvent) : bool :=
  match e with ApiConsole _ _ => true | _ => false end.

(** The body of a [try] block: a trace, and the value thrown or the value
    computed. *)
Definition Try (A : Type) : Type := (Thrown + A) * list ApiEvent.

Definition try_ret {A : Type} (a : A) : Try A := (inr a, []).

Definition try_bind {A B : Type} (m : Try A) (k : A -> Try B) : Try B :=
  match m with
  | (inl thrown, t) => (inl thrown, t)
  | (inr a, t) => (fst (k a), t ++ snd (k a))
  end.

(** A step that is recorded and may throw. *)
Definition try_step {A : Type} (e : ApiEvent) (outcome : Thrown + A) : Try A :=
  (outcome, [e]).

Definition api_log (msg : string) : Try unit :=
  try_step (ApiConsole ConsoleLog msg) (inr tt).

Declare Scope try_scope.
Delimit Scope try_scope with try.
Notation "x <- c1 ;; c2" := (try_bind c1 (fun x => c2))
  (at level 100, c1 at next level, right associativity) : try_scope.
Notation "c1 ;; c2" := (try_bind c1 (fun _ => c2))
  (at level 100, right associativity) : try_scope.

Section RouteHandler.

(** [process.env.AUTH_SECRET], [jwt.verify], the dynamic [import] of the
    tools (the value it throws, if any), and the tool's [execute] as a
    function of the [authToken] of the runtime context. *)
Variable AUTH_SECRET : option string.
Variable jwt_verify : string -> string -> Thrown + Decoded.
Variable importTools : option Thrown.
Variable execute : string -> Thrown + ToolResult.

(** [result.projects[0]?.name || 'No projects'] *)
Definition firstProject (result : ToolResult) : string :=
  match tr_projects result with
  | p :: _ => orElse (pi_name p) "No projects"
  | [] => "No projects"
  end.

(** The [try] block of lines 369-409. *)
Definition GET_try (authHeader : option string) : Try ApiResponse :=
  (match authHeader with
   | Some authHeader =>
       if String.prefix "Bearer " authHeader
       then
         let token := slice 7 authHeader in
         api_log "🔑 [TEST] Token received, length:" ;;
         decoded <- try_step (ApiVerify token (default "" AUTH_SECRET))
                      (jwt_verify token (default "" AUTH_SECRET)) ;;
         api_log "✅ [TEST] Token verified, userId:" ;;
         try_step ApiImport (match importTools with
                             | Some thrown => inl thrown
                             | None => inr tt
                             end) ;;
         api_log "🔧 [TEST] Tool imported successfully" ;;
         result <- try_step (ApiExecute token) (execute token) ;;
         api_log "🎉 [TEST] Tool executed successfully:" ;;
         try_ret {| status := 200;
                    body := BodySuccess result
                              ("Successfully retrieved " +:+ show_Z (tr_total result)
                               +:+ " projects via direct tool call") |}
       else
         api_log "❌ [TEST] No auth token provided" ;;
         try_ret {| status := 401;
                    body := BodyAuthorizationRequired "Authorization required" |}
   | None =>
       api_log "❌ [TEST] No auth token provided" ;;
       try_ret {| status := 401;
                  body := BodyAuthorizationRequired "Authorization required" |}
   end)%try.

(** [GET], lines 366-423, for the value of the [authorization] header. *)
Definition GET (authorization : option string) : ApiResponse * list ApiEvent :=
  let started :=
    [ApiConsole ConsoleLog "🧪 [TEST] Direct getAllProjectsTool test endpoint called"] in
  match GET_try authorization with
  | (inr response, t) => (response, started ++ t)
  | (inl error, t) =>
      ({| status := 500;
          body := BodyFailure
                    (match error with
                     | ThrownError message => message
                     | ThrownOther => "Unknown error"
                     end)
                    "Direct tool test failed" |},
       started ++ t
       ++ [ApiConsole ConsoleError "💥 [TEST] Direct tool test failed:"])
  end.

End RouteHandler.

(** The calls of the handler beyond the console. *)
Definition apiCalls (t : list ApiEvent) : list ApiEvent :=
  List.filter (fun e => negb (isApiConsole e)) t.

(** ** [TokensPage]: the state of the modal *)

(** [opened] of [useDisclosure], [generatedToken] and [showToken]. *)
Record TokensState : Type := mkTokensState {
  ts_opened : bool;
  ts_generatedToken : option string;
  ts_showToken : bool
}.

(** [useDisclosure(false)], [useState(null)], [useState(false)]. *)
Definition initialTokensState : TokensState :=
  {| ts_opened := false; ts_generatedToken := None; ts_showToken := false |}.

(** The calls the handlers of the page make. *)
Inductive TokensEffect : Type :=
| TkOpen
| TkClose
| TkSetGeneratedToken (token : option string)
| TkSetShowToken (show : bool)
| TkNotify (n : Notification)
| TkRefetch
| TkFormReset.

(** [generateToken.onSuccess], lines 54-65. *)
Definition generateToken_onSuccess (data_token : string) : list TokensEffect :=
  [ TkSetGeneratedToken (Some data_token);
    TkSetShowToken true;
    TkNotify {| n_id := None;
                n_title := "API Key Generated";
                n_message := "Your 32-character API key has been generated successfully. Perfect for webhooks! Make sure to copy it now!";
                n_color := Some "green";
                n_loading := None;
                n_autoClose := None;
                n_icon := Some "IconCheck" |};
    TkRefetch;
    TkFormReset ].

(** [revokeToken.onSuccess], lines 77-85. *)
Definition revokeToken_onSuccess : list TokensEffect :=
  [ TkNotify {| n_id := None;
                n_title := "API Key Revoked";
                n_message := "The API key has been revoked successfully.";
                n_color := Some "green";
                n_loading := None;
                n_autoClose := None;
                n_icon := Some "IconCheck" |};
    TkRefetch ].

(** [handleCloseModal], lines 130-134. *)
Definition handleCloseModal : list TokensEffect :=
  [ TkClose; TkSetShowToken false; TkSetGeneratedToken None ].

(** The toasts of a handler written in [M], as effects of the page. *)
Definition toastsOf (handler : M unit) : list TokensEffect :=
  map TkNotify (shown (events (handler emptyWorld))).

(** What can happen to the page: the [Create API Key] button ([open]), the
    modal closing or its [Cancel] / [Done] buttons, and the two mutations
    settling. *)
Inductive TokensHandler : Type :=
| ClickCreate
| CloseModal
| GenerateSucceeded (token : string)
| GenerateFailed (error : TRPCError)
| RevokeSucceeded
| RevokeFailed (error : TRPCError).

Definition effectsOf (h : TokensHandler) : list TokensEffect :=
  match h with
  | ClickCreate => [TkOpen]
  | CloseModal => handleCloseModal
  | GenerateSucceeded token => generateToken_onSuccess token
  | GenerateFailed error => toastsOf (generateToken_onError error)
  | RevokeSucceeded => revokeToken_onSuccess
  | RevokeFailed error => toastsOf (revokeToken_onError error)
  end.

(** The state after a call. *)
Definition applyEffect (s : TokensState) (e : TokensEffect) : TokensState :=
  match e with
  | TkOpen =>
      {| ts_opened := true; ts_generatedToken := ts_generatedToken s;
         ts_showToken := ts_showToken s |}
  | TkClose =>
      {| ts_opened := false; ts_generatedToken := ts_generatedToken s;
         ts_showToken := ts_showToken s |}
  | TkSetGeneratedToken token =>
      {| ts_opened := ts_opened s; ts_generatedToken := token;
         ts_showToken := ts_showToken s |}
  | TkSetShowToken show =>
      {| ts_opened := ts_opened s; ts_generatedToken := ts_generatedToken s;
         ts_showToken := show |}
  | TkNotify _ | TkRefetch | TkFormReset => s
  end.

Definition runHandler (s : TokensState) (h : TokensHandler) : TokensState :=
  fold_left applyEffect (effectsOf h) s.

Definition runHandlers (hs : list TokensHandler) (s : TokensState) : TokensState :=
  fold_left runHandler hs s.

Definition isGenerateSucceeded (h : TokensHandler) : bool :=
  match h with GenerateSucceeded _ => true | _ => false end.

(** A handler that neither sets nor clears the generated token. *)
Definition keepsToken (h : TokensHandler) : bool :=
  match h with
  | GenerateSucceeded _ | CloseModal => false
  | _ => true
  end.

(** What the modal shows of the token: the form, or the token panel with
    the text of its [Code] element. *)
Inductive ModalContent : Type :=
| TokenForm
| TokenPanel (code : option string).

Definition modalContent (s : TokensState) : ModalContent :=
  if negb (ts_showToken s) then TokenForm else TokenPanel (ts_generatedToken s).

(** * Properties of the handlers *)

(** ** Strings *)

Lemma prefix_refl (s : string) : String.prefix s s = true.
Proof.
  induction s as [|c s IH]; simpl; [reflexivity|].
  destruct (Ascii.ascii_dec c c) as [_|Hne]; [exact IH | now elim Hne].
Qed.

Lemma includes_prefix (needle s : string) :
  String.prefix needle s = true -> includes needle s = true.
Proof. destruct s; simpl; intros ->; reflexivity. Qed.

Lemma includes_self (s : string) : includes s s = true.
Proof. apply includes_prefix, prefix_refl. Qed.

Lemma includes_empty (s : string) : includes "" s = true.
Proof. destruct s; reflexivity. Qed.

(** A needle found in [t] is found in [p +:+ t]. *)
Lemma includes_skip (p needle t : string) :
  includes needle t = true -> includes needle (p +:+ t) = true.
Proof.
  intros H. induction p as [|c p IH]; [exact H|].
  change (includes needle (String c (p +:+ t)) = true). simpl.
  rewrite IH. apply orb_true_r.
Qed.

Lemma includes_orElse (s fallback : string) : includes s (orElse s fallback) = true.
Proof. destruct s; [apply includes_empty | apply includes_self]. Qed.

(** ** Empty bulk reschedule *)

(** C9: called with an empty list of action ids, the bulk reschedule
    handler only writes two console lines and returns: the cache is
    unchanged, and the trace holds no mutation, no cache write and no
    notification. *)
Theorem reschedule_nothing (projectId : option string)
    (toDateString : Date -> string) (date : option Date)
    (responses : nat -> Response Action) (w : World) :
  let r := handleOverdueBulkReschedule projectId toDateString date [] responses w in
  world r = w
  /\ events r =
       [ EvConsole ConsoleLog "🔧 [BULK DEBUG] handleOverdueBulkReschedule started:";
         EvConsole ConsoleLog "🔧 [BULK DEBUG] No actions to reschedule - exiting early" ]
  /\ existsb isMutationEvent (events r) = false
  /\ existsb isWrite (events r) = false
  /\ existsb isNotification (events r) = false.
Proof. repeat split. Qed.

(** ** The action list without data *)

(** C10: when the full action list holds no data at the start of a due-date
    update, [onMutate] writes nothing, and [onError], run with the context
    [onMutate] returned, writes nothing either: the world after each phase
    is the world before it and neither trace contains a cache write. *)
Theorem no_data_no_write (v : UpdateActionInput) (e : TRPCError) (w : World) :
  action_getAll (cache w) = None ->
  world (bulkUpdateMutation_onMutate v w) = w
  /\ existsb isWrite (events (bulkUpdateMutation_onMutate v w)) = false
  /\ previousData (result (bulkUpdateMutation_onMutate v w)) = None
  /\ world (bulkUpdateMutation_onError e v
              (Some (result (bulkUpdateMutation_onMutate v w)))
              (world (bulkUpdateMutation_onMutate v w))) = w
  /\ existsb isWrite
       (events (bulkUpdateMutation_onError e v
                  (Some (result (bulkUpdateMutation_onMutate v w)))
                  (world (bulkUpdateMutation_onMutate v w)))) = false.
Proof.
  destruct w as [[getAll getToday projectActions outcomes active allProjects] now].
  simpl. intros ->. repeat split.
Qed.

Lemma no_data_no_write_witness :
  world (bulkUpdateMutation_onMutate (mkUpdateAction "a1" None) emptyWorld)
  = emptyWorld
  /\ world (bulkUpdateMutation_onError (mkError "boom") (mkUpdateAction "a1" None)
              (Some (result (bulkUpdateMutation_onMutate
                               (mkUpdateAction "a1" None) emptyWorld)))
              (world (bulkUpdateMutation_onMutate
                        (mkUpdateAction "a1" None) emptyWorld))) = emptyWorld.
Proof.
  pose proof (no_data_no_write (mkUpdateAction "a1" None) (mkError "boom")
                emptyWorld eq_refl) as H.
  split; [exact (proj1 H) | exact (proj1 (proj2 (proj2 (proj2 H))))].
Defined.

(** ** Failure paths of the optimistic mutations *)





(** ** How failures are reported *)

Lemma toastCarries_shown (e : TRPCError) (t : list Event) (n : Notification) :
  shown t = [n] ->
  includes (err_message e) (n_message n) = true ->
  toastCarries e t = true.
Proof.
  unfold toastCarries. intros -> H. cbn [existsb]. now rewrite H.
Qed.

(** C8, as stated, fails: a failed token generation writes nothing to the
    console, and a failed project update raises no toast at all. *)
Lemma token_failure_not_logged :
  loggedToConsole
    (events (errorHandler FailedGenerateToken (mkError "boom") emptyWorld)) = false
  /\ toastCarries (mkError "boom")
       (events (errorHandler
                  (FailedProjectUpdate
                     (mkUpdateProject "p1" "Launch" "ACTIVE" "HIGH" (Some []))
                     (Some (mkUpdateProjectContext None None)))
                  (mkError "boom") emptyWorld)) = false.
Proof. split; reflexivity. Qed.

(** C8, amended: each failure is handled by the [onError] callback of its
    own mutation.  The action due-date update logs the failure to the
    console at error level and raises one toast, whose message ends with
    the error's message, or with [Unknown error] when that is empty.  Bulk
    delete, token generation and token revocation raise one toast whose
    message is the error's message, or a fixed text of their own when that
    is empty, and log nothing.  The outcome creation raises one toast whose
    message is the error's message as it is, empty when that is empty, and
    logs nothing.  The [onError] of the project update neither logs nor
    raises a toast. *)
Theorem failure_reporting (e : TRPCError) (w : World) :
  (forall variables context,
      let t := events (errorHandler (FailedActionUpdate variables context) e w) in
      In (ConsoleError,
          "🔧 [MUTATION DEBUG] onError for action " +:+ ua_id variables +:+ ":")
         (consoleCalls t)
      /\ map n_message (shown t)
         = [ "Failed to update action " +:+ ua_id variables +:+ ": "
             +:+ orElse (err_message e) "Unknown error" ]
      /\ toastCarries e t = true)
  /\ (map n_message (shown (events (errorHandler FailedBulkDelete e w)))
      = [ orElse (err_message e) "Failed to delete overdue actions" ]
      /\ toastOnly FailedBulkDelete e w)
  /\ (map n_message (shown (events (errorHandler FailedGenerateToken e w)))
      = [ orElse (err_message e) "Failed to generate API key" ]
      /\ toastOnly FailedGenerateToken e w)
  /\ (map n_message (shown (events (errorHandler FailedRevokeToken e w)))
      = [ orElse (err_message e) "Failed to revoke API key" ]
      /\ toastOnly FailedRevokeToken e w)
  /\ (forall variables context,
         map n_message
           (shown (events (errorHandler (FailedOutcomeCreate variables context) e w)))
         = [ err_message e ]
         /\ toastOnly (FailedOutcomeCreate variables context) e w)
  /\ (forall variables context,
         let t := events (errorHandler (FailedProjectUpdate variables context) e w) in
         loggedToConsole t = false /\ shown t = []).
Proof.
  split; [|split; [|split; [|split; [|split]]]].
  - intros variables context. split; [|split].
    + destruct context as [[[previous|] id start]|]; left; reflexivity.
    + destruct context as [[[previous|] id start]|]; reflexivity.
    + destruct context as [[[previous|] id start]|];
        (eapply toastCarries_shown; [reflexivity|]);
        do 3 apply includes_skip; apply includes_orElse.
  - split; [reflexivity|]. split; [|reflexivity].
    eapply toastCarries_shown; [reflexivity | apply includes_orElse].
  - split; [reflexivity|]. split; [|reflexivity].
    eapply toastCarries_shown; [reflexivity | apply includes_orElse].
  - split; [reflexivity|]. split; [|reflexivity].
    eapply toastCarries_shown; [reflexivity | apply includes_orElse].
  - intros variables context. split; [reflexivity|]. split; [|reflexivity].
    eapply toastCarries_shown; [reflexivity | apply includes_self].
  - intros variables context.
    destruct context as [[[active|] [allProjects|]]|]; split; reflexivity.
Qed.

(** ** Traces are read piecewise *)

Lemma invalidations_app (q : QueryKey) (t1 t2 : list Event) :
  invalidations q (t1 ++ t2) = invalidations q t1 + invalidations q t2.
Proof. unfold invalidations. now rewrite List.filter_app, List.length_app. Qed.

Lemma settledMutations_app (t1 t2 : list Event) :
  settledMutations (t1 ++ t2) = settledMutations t1 + settledMutations t2.
Proof. unfold settledMutations. now rewrite List.filter_app, List.length_app. Qed.

Lemma failedMutations_app (t1 t2 : list Event) :
  failedMutations (t1 ++ t2) = failedMutations t1 + failedMutations t2.
Proof. unfold failedMutations. now rewrite List.filter_app, List.length_app. Qed.

Lemma schedule_app (t1 t2 : list Event) :
  schedule (t1 ++ t2) = schedule t1 ++ schedule t2.
Proof.
  induction t1 as [|e t1 IH]; [reflexivity|].
  destruct e as [| | | | | |[]|[]|[] ?| | |]; simpl; now rewrite ?IH.
Qed.

Lemma issued_app (t1 t2 : list Event) :
  issued (t1 ++ t2) = issued t1 ++ issued t2.
Proof.
  induction t1 as [|e t1 IH]; [reflexivity|].
  destruct e as [| | | | | |[]| | | | |]; simpl; now rewrite ?IH.
Qed.

(** ** One action update, from start to settlement *)

Lemma mutateAsync_result {V D C : Type} (tag : V -> MutationCall)
    (o : MutationOptions V D C) (v : V) (response : Response D) (w : World) :
  result (mutateAsync tag o v response w) = response.
Proof. destruct response; reflexivity. Qed.

(** What one run of the action update contributes to a trace: it starts
    and settles once, and marks the full list and the today view stale
    once each. *)
Ltac by_cases_on_action_list w response :=
  destruct w as [[[?|] ? ? ? ? ?] ?]; destruct response; reflexivity.

Lemma action_update_schedule (v : UpdateActionInput) (response : Response Action)
    (w : World) :
  schedule (events (mutateAsync ActionUpdate bulkUpdateMutation v response w))
  = [Started (ua_id v); Settled (ua_id v) (isResolved response)].
Proof. by_cases_on_action_list w response. Qed.

Lemma action_update_issued (v : UpdateActionInput) (response : Response Action)
    (w : World) :
  issued (events (mutateAsync ActionUpdate bulkUpdateMutation v response w))
  = [ua_id v].
Proof. by_cases_on_action_list w response. Qed.




(** ** One iteration of the bulk reschedule loop *)

Section Loop.

Variable date : option Date.
Variable totalCount : nat.
Variable responses : nat -> Response Action.

(** The loop at [actionId :: rest] runs the update of [actionId], then
    either breaks or goes on with [rest]. *)
Lemma rescheduleLoop_cons (i : nat) (actionId : string) (rest : list string)
    (results : list RescheduleResult) (w : World) :
  rescheduleLoop date totalCount responses i (actionId :: rest) results w =
  let update := iterationUpdate date responses actionId i w in
  match responses i with
  | Resolved d =>
      let next :=
        rescheduleLoop date totalCount responses (S i) rest
          (results ++ [okEntry actionId d])
          (afterPause totalCount i (world update)) in
      (result next, world next,
       processingLine totalCount actionId i :: events update
       ++ EvConsole ConsoleLog
            ("🔧 [BULK DEBUG] Mutation " +:+ show_nat (i + 1) +:+ "/"
             +:+ show_nat totalCount +:+ " SUCCESS for action "
             +:+ actionId +:+ ":")
       :: (if Nat.ltb i (totalCount - 1) then [EvDelay 100] else [])
       ++ events next)
  | Rejected e =>
      let next :=
        rescheduleLoop date totalCount responses (S i) rest
          (results ++ [failEntry actionId e]) (world update) in
      let failed :=
        processingLine totalCount actionId i :: events update
        ++ [EvConsole ConsoleError
              ("🔧 [BULK DEBUG] Mutation " +:+ show_nat (i + 1) +:+ "/"
               +:+ show_nat totalCount +:+ " FAILED for action "
               +:+ actionId +:+ ":")] in
      if isConnectionError (err_message e)
      then (results ++ [failEntry actionId e], world update,
            failed
            ++ [EvConsole ConsoleError
                  ("🔧 [BULK DEBUG] Database connection lost"
                   +:+ " - stopping bulk operation")])
      else (result next, world next, failed ++ events next)
  end.
Proof.
  unfold iterationUpdate, processingLine.
  destruct w as [[getAll getToday projectActions outcomes active allProjects] now].
  destruct (responses i) as [d|e] eqn:E.
  - cbn [rescheduleLoop]. unfold bind at 1. unfold bind at 1. rewrite E.
    unfold afterPause.
    destruct getAll; destruct (Nat.ltb i (totalCount - 1)); reflexivity.
  - cbn [rescheduleLoop]. unfold bind. rewrite E.
    assert (Hres : forall w',
               fst (fst (mutateAsync ActionUpdate bulkUpdateMutation
                           {| ua_id := actionId; ua_dueDate := date |}
                           (Rejected e) w')) = Rejected e)
      by (intros w'; apply mutateAsync_result).
    rewrite !Hres. cbn [errorMessageOf].
    destruct getAll; destruct (isConnectionError (err_message e)); reflexivity.
Qed.

(** The same, in one shape for both answers: the trace of the loop is the
    trace of the head's update, some lines [mid] that hold at most a pause,
    and the trace of the loop on [rest] unless the answer stops the loop. *)
Lemma loop_iteration (i : nat) (actionId : string) (rest : list string)
    (results : list RescheduleResult) (w : World) :
  exists results' w' mid,
    events (rescheduleLoop date totalCount responses i (actionId :: rest) results w)
    = [processingLine totalCount actionId i]
      ++ events (iterationUpdate date responses actionId i w)
      ++ mid
      ++ (if stops (responses i) then []
          else events (rescheduleLoop date totalCount responses (S i) rest
                         results' w'))
    /\ result (rescheduleLoop date totalCount responses i (actionId :: rest)
                 results w)
       = (if stops (responses i) then results'
          else result (rescheduleLoop date totalCount responses (S i) rest
                         results' w'))
    /\ noFailure results' = noFailure results && isResolved (responses i)
    /\ schedule mid
       = (if isResolved (responses i) && Nat.ltb i (totalCount - 1)
          then [Paused 100] else [])
    /\ issued mid = []
    /\ settledMutations mid = 0
    /\ failedMutations mid = 0
    /\ (forall q, invalidations q mid = 0).
Proof.
  rewrite rescheduleLoop_cons. cbn zeta.
  destruct (responses i) as [d|e] eqn:E; cbn [stops isResolved].
  - exists (results ++ [okEntry actionId d]).
    eexists _,
      (_ :: (if Nat.ltb i (totalCount - 1) then [EvDelay 100] else [])).
    split; [cbn zeta; unfold events at 1; cbn [snd app]; reflexivity|].
    split; [reflexivity|].
    split.
    { unfold noFailure. rewrite List.filter_app, List.length_app.
      cbn. rewrite Nat.add_0_r, andb_true_r. reflexivity. }
    destruct (Nat.ltb i (totalCount - 1)); repeat split.
  - destruct (isConnectionError (err_message e)).
    + exists (results ++ [failEntry actionId e]). eexists w, [_; _].
      split; [cbn zeta; unfold events at 1; cbn [snd app];
              rewrite <- ?app_assoc, ?app_nil_r; reflexivity|].
      split; [reflexivity|].
      split.
      { unfold noFailure. rewrite List.filter_app, List.length_app.
        cbn. rewrite andb_false_r.
        destruct (length _); reflexivity. }
      repeat split.
    + exists (results ++ [failEntry actionId e]). eexists _, [_].
      split; [cbn zeta; unfold events at 1; cbn [snd app];
              rewrite <- ?app_assoc; reflexivity|].
      split; [reflexivity|].
      split.
      { unfold noFailure. rewrite List.filter_app, List.length_app.
        cbn. rewrite andb_false_r.
        destruct (length _); reflexivity. }
      repeat split.
Qed.


(** The loop runs its mutations one at a time. *)
Lemma loop_oneAtATime (rest : list string) :
  forall (i : nat) (results : list RescheduleResult) (w : World),
    oneAtATime
      (schedule (events (rescheduleLoop date totalCount responses i rest results w)))
    = true.
Proof.
  induction rest as [|actionId rest IH]; intros i results w; [reflexivity|].
  destruct (loop_iteration i actionId rest results w)
    as (results' & w' & mid & Hev & _ & _ & Hsch & _).
  rewrite Hev, !schedule_app, Hsch. unfold iterationUpdate.
  rewrite action_update_schedule.
  change (schedule [processingLine totalCount actionId i]) with (@nil Step).
  cbn [app oneAtATime ua_id]. rewrite String.eqb_refl. cbn [andb].
  assert (Htail : oneAtATime
            (if stops (responses i) then []
             else schedule (events (rescheduleLoop date totalCount responses
                                      (S i) rest results' w'))) = true).
  { destruct (stops (responses i)); [reflexivity | apply IH]. }
  destruct (stops (responses i));
    destruct (isResolved (responses i) && Nat.ltb i (totalCount - 1));
    cbn [app oneAtATime schedule] in *; exact Htail.
Qed.

Lemma loop_schedule_cons (i : nat) (actionId : string) (rest : list string)
    (results : list RescheduleResult) (w : World) :
  isResolved (responses i) = true ->
  exists results' w',
    schedule (events (rescheduleLoop date totalCount responses i
                        (actionId :: rest) results w))
    = Started actionId :: Settled actionId true
      :: (if Nat.ltb i (totalCount - 1) then [Paused 100] else [])
      ++ schedule (events (rescheduleLoop date totalCount responses (S i) rest
                             results' w')).
Proof.
  intros Hok.
  destruct (loop_iteration i actionId rest results w)
    as (results' & w' & mid & Hev & _ & _ & Hsch & _).
  exists results', w'.
  rewrite Hev, !schedule_app, Hsch. unfold iterationUpdate.
  rewrite action_update_schedule, Hok.
  destruct (responses i); [|discriminate Hok]. reflexivity.
Qed.

(** When every update succeeds, a pause of 100 ms separates any two
    consecutive updates of the loop. *)
Lemma loop_spaced (rest : list string) :
  forall (i : nat) (results : list RescheduleResult) (w : World),
    (forall j, isResolved (responses j) = true) ->
    i + length rest = totalCount ->
    spacedBy 100
      (schedule (events (rescheduleLoop date totalCount responses i rest results w)))
    = true.
Proof.
  induction rest as [|actionId rest IH]; intros i results w Hok Hlen;
    [reflexivity|].
  destruct (loop_schedule_cons i actionId rest results w (Hok i))
    as (results' & w' & Hsched).
  rewrite Hsched. cbn [length] in Hlen.
  destruct rest as [|next rest].
  - replace (Nat.ltb i (totalCount - 1)) with false
      by (symmetry; apply Nat.ltb_ge; cbn [length] in Hlen; lia).
    cbn. now rewrite String.eqb_refl.
  - replace (Nat.ltb i (totalCount - 1)) with true
      by (symmetry; apply Nat.ltb_lt; cbn [length] in Hlen; lia).
    specialize (IH (S i) results' w' Hok ltac:(lia)).
    destruct (loop_schedule_cons (S i) next rest results' w' (Hok (S i)))
      as (results'' & w'' & Hnext).
    rewrite Hnext in IH |- *.
    cbn [app spacedBy]. rewrite String.eqb_refl. exact IH.
Qed.

(** The ids issued by the loop: the head, then the ids issued for the rest
    unless the answer to the head stops the loop. *)
Lemma issued_loop_cons (i : nat) (actionId : string) (rest : list string)
    (results : list RescheduleResult) (w : World) :
  exists results' w',
    issued (events (rescheduleLoop date totalCount responses i
                      (actionId :: rest) results w)) =
    actionId ::
      (if stops (responses i) then []
       else issued (events (rescheduleLoop date totalCount responses (S i)
                              rest results' w'))).
Proof.
  destruct (loop_iteration i actionId rest results w)
    as (results' & w' & mid & Hev & _ & _ & _ & Hiss & _).
  exists results', w'. rewrite Hev, !issued_app, Hiss. unfold iterationUpdate.
  rewrite action_update_issued.
  destruct (stops (responses i)); reflexivity.
Qed.

(** When the mutation at position [j] of the loop fails: the loop issues
    nothing after it exactly when the error is a connection error, and
    otherwise goes on with the next action id. *)
Lemma loop_abort (rest : list string) :
  forall (i j : nat) (results : list RescheduleResult) (w : World) (e : TRPCError),
    let sent := issued (events (rescheduleLoop date totalCount responses i
                                  rest results w)) in
    j < length sent ->
    responses (i + j) = Rejected e ->
    S j < length rest ->
    sent !! j = rest !! j
    /\ (isConnectionError (err_message e) = true <-> length sent = S j)
    /\ (isConnectionError (err_message e) = false -> sent !! S j = rest !! S j).
Proof.
  induction rest as [|actionId rest IH]; intros i j results w e sent Hj He Hlen.
  - cbn in Hlen. lia.
  - subst sent.
    destruct (issued_loop_cons i actionId rest results w) as (results' & w' & Hcons).
    rewrite Hcons in *. clear Hcons.
    destruct j as [|j].
    + rewrite Nat.add_0_r in He. rewrite He. cbn [stops].
      destruct (isConnectionError (err_message e)).
      * repeat split; intros; congruence.
      * destruct rest as [|next rest]; [cbn in Hlen; lia|].
        destruct (issued_loop_cons (S i) next rest results' w')
          as (results'' & w'' & Hnext).
        rewrite Hnext. cbn [length]. repeat split; intros; try congruence; lia.
    + destruct (stops (responses i)); [cbn in Hj; lia|].
      cbn [length] in Hj, Hlen.
      replace (i + S j) with (S i + j) in He by lia.
      destruct (IH (S i) j results' w' e ltac:(lia) He ltac:(lia))
        as (Hsame & Hiff & Hnext).
      cbn [length]. repeat split.
      * exact Hsame.
      * intros H. f_equal. now apply Hiff.
      * intros H. apply Hiff. lia.
      * exact Hnext.
Qed.

End Loop.

(** ** Running a handler step by step *)

Lemma events_bind {A B : Type} (m : M A) (k : A -> M B) (w : World) :
  events (bind m k w) = events (m w) ++ events (k (result (m w)) (world (m w))).
Proof. reflexivity. Qed.

Lemma world_bind {A B : Type} (m : M A) (k : A -> M B) (w : World) :
  world (bind m k w) = world (k (result (m w)) (world (m w))).
Proof. reflexivity. Qed.

Lemma result_bind {A B : Type} (m : M A) (k : A -> M B) (w : World) :
  result (bind m k w) = result (k (result (m w)) (world (m w))).
Proof. reflexivity. Qed.

Lemma world_emit (e : Event) (w : World) : world (emit e w) = w.
Proof. reflexivity. Qed.

Lemma events_emit (e : Event) (w : World) : events (emit e w) = [e].
Proof. reflexivity. Qed.

Lemma world_ret {A : Type} (a : A) (w : World) : world (ret a w) = w.
Proof. reflexivity. Qed.

Lemma events_ret {A : Type} (a : A) (w : World) : events (ret a w) = [].
Proof. reflexivity. Qed.

Lemma result_ret {A : Type} (a : A) (w : World) : result (ret a w) = a.
Proof. reflexivity. Qed.

Lemma world_now (w : World) : world (Date_now w) = w.
Proof. reflexivity. Qed.

Lemma events_now (w : World) : events (Date_now w) = [].
Proof. reflexivity. Qed.

Lemma world_getData {T : Type} (q : Query T) (w : World) : world (getData q w) = w.
Proof. reflexivity. Qed.

Lemma events_getData {T : Type} (q : Query T) (w : World) :
  events (getData q w) = [].
Proof. reflexivity. Qed.

(** Symbolic execution of a handler: binds are split, the effect-free and
    the logging primitives are evaluated. *)
Ltac exec :=
  repeat first
    [ rewrite events_bind | rewrite world_bind | rewrite result_bind
    | rewrite world_emit | rewrite events_emit
    | rewrite world_ret | rewrite events_ret | rewrite result_ret
    | rewrite world_now | rewrite events_now
    | rewrite world_getData | rewrite events_getData
    | progress cbn beta iota
    | progress unfold console_log, console_error, notifications_show,
        notifications_update, invalidate ].

(** ** The trace of the whole bulk reschedule *)

Lemma quiet_app (t1 t2 : list Event) : quiet t1 -> quiet t2 -> quiet (t1 ++ t2).
Proof.
  intros (S1 & I1 & N1 & F1) (S2 & I2 & N2 & F2). unfold quiet.
  rewrite schedule_app, issued_app, settledMutations_app, failedMutations_app.
  rewrite S1, S2, I1, I2, N1, N2, F1, F2. repeat split.
Qed.

Section Reschedule.

Variable projectId : option string.
Variable toDateString : Date -> string.
Variable date : option Date.
Variable responses : nat -> Response Action.

(** Around the loop, the body of the [try] only logs, notifies and, when
    no mutation failed, marks the queries stale once more. *)
Lemma rescheduleTry_trace (ids : list string) (w : World) :
  let loop := rescheduleLoop date (length ids) responses 0 ids [] w in
  exists before after,
    events (rescheduleTry projectId toDateString date ids responses w)
    = before ++ events loop ++ after
    /\ world (rescheduleTry projectId toDateString date ids responses w)
       = world loop
    /\ quiet before /\ quiet after
    /\ invalidations QActionGetAll before = 0
    /\ invalidations QActionGetToday before = 0
    /\ invalidations QActionGetAll after = (if noFailure (result loop) then 1 else 0)
    /\ invalidations QActionGetToday after = (if noFailure (result loop) then 1 else 0).
Proof.
  intros loop. unfold rescheduleTry. exec. fold loop. unfold noFailure.
  destruct (Nat.ltb 0 (length (List.filter (fun r => negb (r_success r))
                                 (result loop)))).
  - destruct (Nat.ltb 0 (length (List.filter hasConnectionError
               (List.filter (fun r => negb (r_success r)) (result loop)))));
      exec; eexists _, _; (split; [reflexivity|]); repeat split.
  - destruct projectId as [pid|]; [destruct (truthy pid)|]; exec; eexists [_], _;
      (split; [reflexivity|]); repeat split.
Qed.

(** The same for the whole handler, called with at least one action id. *)
Lemma reschedule_trace (actionId : string) (rest : list string) (w : World) :
  let loop := rescheduleLoop date (length (actionId :: rest)) responses 0
                (actionId :: rest) [] w in
  exists before after,
    events (handleOverdueBulkReschedule projectId toDateString date
              (actionId :: rest) responses w)
    = before ++ events loop ++ after
    /\ world (handleOverdueBulkReschedule projectId toDateString date
                (actionId :: rest) responses w) = world loop
    /\ quiet before /\ quiet after
    /\ invalidations QActionGetAll before = 0
    /\ invalidations QActionGetToday before = 0
    /\ invalidations QActionGetAll after = (if noFailure (result loop) then 1 else 0)
    /\ invalidations QActionGetToday after = (if noFailure (result loop) then 1 else 0).
Proof.
  intros loop. remember (actionId :: rest) as ids eqn:Hids.
  destruct (rescheduleTry_trace ids w)
    as (b & a & Hev & Hw & Hqb & Hqa & H1 & H2 & H3 & H4).
  fold loop in Hev, Hw, H3, H4.
  unfold handleOverdueBulkReschedule.
  replace (Nat.eqb (length ids) 0) with false by (subst ids; reflexivity).
  exec. rewrite Hev, Hw.
  destruct (result (rescheduleTry projectId toDateString date ids responses w));
    exec; cbn [app].
  all: match goal with
       | |- exists _ _, ?e1 :: ?e2 :: ?e3 :: (?b' ++ _ ++ ?a') ++ ?tail = _ /\ _ =>
           exists ([e1; e2; e3] ++ b'), (a' ++ tail)
       end.
  all: split; [cbn [app]; rewrite <- !app_assoc; reflexivity|].
  all: split; [reflexivity|].
  all: split; [apply quiet_app; [repeat split | exact Hqb]|].
  all: split; [apply quiet_app; [exact Hqa | repeat split]|].
  all: rewrite !invalidations_app, H1, H2, H3, H4, !Nat.add_0_r.
  all: repeat split.
Qed.

End Reschedule.

(** ** Scheduling of the bulk reschedule *)

Lemma reschedule_issued (projectId : option string) (toDateString : Date -> string)
    (date : option Date) (ids : list string) (responses : nat -> Response Action)
    (w : World) :
  issued (events (handleOverdueBulkReschedule projectId toDateString date ids
                    responses w))
  = issued (events (rescheduleLoop date (length ids) responses 0 ids [] w)).
Proof.
  destruct ids as [|actionId rest]; [reflexivity|].
  destruct (reschedule_trace projectId toDateString date responses actionId rest w)
    as (before & after & Hev & _ & (_ & Hb & _) & (_ & Ha & _) & _).
  rewrite Hev, !issued_app, Hb, Ha, app_nil_r. reflexivity.
Qed.

(** The bulk reschedule issues its mutations one at a time: in its trace
    every update settles before the next one starts. *)
Lemma reschedule_oneAtATime (projectId : option string)
    (toDateString : Date -> string) (date : option Date) (ids : list string)
    (responses : nat -> Response Action) (w : World) :
  oneAtATime (schedule (events (handleOverdueBulkReschedule projectId toDateString
                                  date ids responses w))) = true.
Proof.
  destruct ids as [|actionId rest]; [reflexivity|].
  destruct (reschedule_trace projectId toDateString date responses actionId rest w)
    as (before & after & Hev & _ & (Hb & _) & (Ha & _) & _).
  rewrite Hev, !schedule_app, Hb, Ha, app_nil_r. apply loop_oneAtATime.
Qed.

(** When every update of a bulk reschedule succeeds, a pause of 100 ms
    separates any two consecutive updates. *)
Lemma reschedule_spaced_when_all_succeed (projectId : option string)
    (toDateString : Date -> string) (date : option Date) (ids : list string)
    (responses : nat -> Response Action) (w : World) :
  (forall j, isResolved (responses j) = true) ->
  spacedBy 100 (schedule (events (handleOverdueBulkReschedule projectId toDateString
                                    date ids responses w))) = true.
Proof.
  intros Hok. destruct ids as [|actionId rest]; [reflexivity|].
  destruct (reschedule_trace projectId toDateString date responses actionId rest w)
    as (before & after & Hev & _ & (Hb & _) & (Ha & _) & _).
  rewrite Hev, !schedule_app, Hb, Ha, app_nil_r.
  now apply loop_spaced.
Qed.

(** C5, on the input where it fails: two action ids, the first update
    rejected with an ordinary error.  Both updates run one after the other,
    but no pause separates them: the second update starts right after the
    first one has settled.  When the first update succeeds the pause of
    100 ms is there. *)
Theorem no_pause_after_failed_update (projectId : option string)
    (toDateString : Date -> string) (date : option Date) (w : World) :
  schedule (events (handleOverdueBulkReschedule projectId toDateString date
                      ["a1"; "a2"] firstFails w))
  = [Started "a1"; Settled "a1" false; Started "a2"; Settled "a2" true]
  /\ spacedBy 100 (schedule (events (handleOverdueBulkReschedule projectId
                                       toDateString date ["a1"; "a2"]
                                       firstFails w))) = false
  /\ schedule (events (handleOverdueBulkReschedule projectId toDateString date
                         ["a1"; "a2"] allSucceed w))
     = [Started "a1"; Settled "a1" true; Paused 100;
        Started "a2"; Settled "a2" true].
Proof.
  destruct w as [[[getAll|] getToday projectActions outcomes active allProjects] now];
    destruct projectId as [[|c pid]|], date; repeat split.
Qed.

(** C6: when the update at position [i] of a bulk reschedule fails with
    error [e] and is not the last one, the loop issues no further mutation
    exactly when the message of [e] is classified as a connection failure
    (it contains "Server has closed the connection" or "Connection reset by
    peer"); for any other error the update of the next action id is
    issued. *)
Theorem abort_iff_connection_error (projectId : option string)
    (toDateString : Date -> string) (date : option Date) (ids : list string)
    (responses : nat -> Response Action) (w : World) (i : nat) (e : TRPCError) :
  i < length (issued (events (handleOverdueBulkReschedule projectId toDateString
                                date ids responses w))) ->
  responses i = Rejected e ->
  S i < length ids ->
  issued (events (handleOverdueBulkReschedule projectId toDateString date ids
                    responses w)) !! i = ids !! i
  /\ (isConnectionError (err_message e) = true <->
      length (issued (events (handleOverdueBulkReschedule projectId toDateString
                                date ids responses w))) = S i)
  /\ (isConnectionError (err_message e) = false ->
      issued (events (handleOverdueBulkReschedule projectId toDateString date ids
                        responses w)) !! S i = ids !! S i).
Proof.
  rewrite reschedule_issued. intros Hi He Hlen.
  exact (loop_abort date (length ids) responses ids 0 i [] w e Hi He Hlen).
Qed.

Lemma abort_iff_connection_error_witness :
  (0 < length (issued (events (handleOverdueBulkReschedule None sampleDateString
                                 None ["a1"; "a2"] connectionDrops
                                 twoActionsWorld))))
  /\ connectionDrops 0
     = Rejected (mkError "Error: Connection reset by peer (os error 104)")
  /\ 1 < length ["a1"; "a2"]
  /\ length (issued (events (handleOverdueBulkReschedule None sampleDateString
                               None ["a1"; "a2"] connectionDrops
                               twoActionsWorld))) = 1.
Proof.
  assert (H0 : 0 < length (issued (events (handleOverdueBulkReschedule None
                 sampleDateString None ["a1"; "a2"] connectionDrops
                 twoActionsWorld)))) by (vm_compute; lia).
  assert (H2 : 1 < length ["a1"; "a2"]) by (simpl; lia).
  split; [exact H0|]. split; [reflexivity|]. split; [exact H2|].
  apply (abort_iff_connection_error None sampleDateString None ["a1"; "a2"]
           connectionDrops twoActionsWorld 0
           (mkError "Error: Connection reset by peer (os error 104)")
           H0 eq_refl H2).
  reflexivity.
Defined.

(** ** Invalidation when a mutation settles *)




(** ** What the snapshot of the action update covers *)








(** ** The provisional outcome record *)

(** What [createOutcomeMutation.onMutate] leaves in the cache. *)
Lemma creation_onMutate_cache (projectId : string) (current : list Outcome)
    (v : CreateOutcomeInput) (w : World) :
  let r := createOutcomeMutation_onMutate projectId current v w in
  let temp := tempOutcome (result r) in
  cache (world r) =
  {| action_getAll := action_getAll (cache w);
     action_getToday := action_getToday (cache w);
     action_getProjectActions := action_getProjectActions (cache w);
     outcome_getMyOutcomes :=
       Some (default [] (outcome_getMyOutcomes (cache w)) ++ [temp]);
     project_getActiveWithDetails :=
       option_map
         (map (withOutcomes projectId (map (summarize projectId) (current ++ [temp]))))
         (project_getActiveWithDetails (cache w));
     project_getAll :=
       option_map
         (map (withOutcomes projectId (map (summarize projectId) (current ++ [temp]))))
         (project_getAll (cache w)) |}.
Proof.
  destruct w as [[getAll getToday projectActions outcomes active allProjects] now].
  destruct outcomes, active, allProjects; reflexivity.
Qed.

Lemma summarize_id (projectId : string) (o : Outcome) :
  po_id (summarize projectId o) = o_id o.
Proof. reflexivity. Qed.

(** A project list that holds the project shows the provisional record
    after the optimistic write. *)
Lemma withOutcomes_shows (projectId tid : string) (os : list ProjectOutcome)
    (ps : list Project) :
  hasProject projectId ps = true ->
  existsb (fun o => String.eqb (po_id o) tid) os = true ->
  existsb (projectHasOutcome tid) (map (withOutcomes projectId os) ps) = true.
Proof.
  intros Hp Hos. induction ps as [|p ps IH]; [discriminate Hp|].
  cbn [hasProject existsb map] in *. unfold withOutcomes at 1.
  destruct (String.eqb (p_id p) projectId).
  - unfold projectHasOutcome at 1. cbn [set_outcomes p_outcomes].
    rewrite Hos. reflexivity.
  - cbn [orb] in Hp. rewrite (IH Hp). apply orb_true_r.
Qed.

(** C4, as stated, fails: with project lists that hold no data the
    provisional record is written to the outcome list only, and the project
    lists still hold no data; with project lists that hold data but not the
    project, they do not show the provisional record either. *)
Lemma provisional_record_not_in_project_lists :
  inOutcomeList (makeTempId (clock emptyWorld))
    (cache (world (createOutcomeMutation_onMutate "p1" []
                     (mkCreateOutcome "Ship beta" "weekly") emptyWorld))) = true
  /\ project_getActiveWithDetails
       (cache (world (createOutcomeMutation_onMutate "p1" []
                        (mkCreateOutcome "Ship beta" "weekly") emptyWorld))) = None
  /\ project_getAll
       (cache (world (createOutcomeMutation_onMutate "p1" []
                        (mkCreateOutcome "Ship beta" "weekly") emptyWorld))) = None
  /\ inProjects (makeTempId (clock withoutProjectWorld))
       (project_getAll
          (cache (world (createOutcomeMutation_onMutate "p1" []
                           (mkCreateOutcome "Ship beta" "weekly")
                           withoutProjectWorld)))) = false.
Proof. repeat split. Qed.

(** C4, amended: before an outcome creation is sent, [onMutate] builds a
    provisional outcome whose identifier is "temp-" followed by the current
    time, and appends it to the user's outcome list (which then holds data
    in any case).  A project list is written only if it holds data, and
    there only the records of the component's project change: their outcomes
    become the component's current outcomes followed by the provisional
    one.  So a project list shows the provisional record when it holds the
    project.  All these writes precede the request. *)
Theorem provisional_record_written (projectId name status priority : string)
    (current : list Outcome) (v : CreateOutcomeInput) (w : World) :
  let r := createOutcomeMutation_onMutate projectId current v w in
  let temp := tempOutcome (result r) in
  let written := map (summarize projectId) (current ++ [temp]) in
  (tempId (result r) = makeTempId (clock w)
   /\ o_id temp = makeTempId (clock w)
   /\ o_description temp = co_description v)
  /\ outcome_getMyOutcomes (cache (world r))
     = Some (default [] (outcome_getMyOutcomes (cache w)) ++ [temp])
  /\ project_getActiveWithDetails (cache (world r))
     = option_map (map (withOutcomes projectId written))
         (project_getActiveWithDetails (cache w))
  /\ project_getAll (cache (world r))
     = option_map (map (withOutcomes projectId written)) (project_getAll (cache w))
  /\ (forall ps,
         project_getActiveWithDetails (cache w) = Some ps ->
         hasProject projectId ps = true ->
         inProjects (makeTempId (clock w))
           (project_getActiveWithDetails (cache (world r))) = true)
  /\ (forall ps,
         project_getAll (cache w) = Some ps ->
         hasProject projectId ps = true ->
         inProjects (makeTempId (clock w)) (project_getAll (cache (world r))) = true)
  /\ (forall response,
         exists rest,
           events (mutateAsync OutcomeCreate
                     (createOutcomeMutation projectId name status priority current)
                     v response w)
           = EvMutationStart (OutcomeCreate v)
             :: events r ++ EvRequestSent (OutcomeCreate v) :: rest).
Proof.
  intros r temp written.
  pose proof (creation_onMutate_cache projectId current v w) as Hcache.
  cbn zeta in Hcache. fold r temp written in Hcache.
  assert (Hwritten : existsb (fun o => String.eqb (po_id o) (makeTempId (clock w)))
                     written = true).
  { subst written. rewrite map_app, existsb_app. cbn [map existsb].
    rewrite summarize_id.
    replace (o_id temp) with (makeTempId (clock w)) by reflexivity.
    rewrite String.eqb_refl. cbn [orb]. apply orb_true_r. }
  split; [repeat split|].
  rewrite Hcache. cbn [outcome_getMyOutcomes project_getActiveWithDetails project_getAll].
  split; [reflexivity|]. split; [reflexivity|]. split; [reflexivity|].
  split; [|split].
  - intros ps -> Hp. cbn [option_map inProjects].
    now apply withOutcomes_shows.
  - intros ps -> Hp. cbn [option_map inProjects].
    now apply withOutcomes_shows.
  - intros response. subst r.
    destruct response; eexists; unfold mutateAsync; exec; cbn [app];
      unfold run_onMutate; cbn [onMutate createOutcomeMutation]; exec;
      rewrite app_nil_r; reflexivity.
Qed.

Lemma provisional_record_written_witness :
  project_getAll (cache projectsWorld) = Some [sampleProject; otherProject]
  /\ hasProject "p1" [sampleProject; otherProject] = true
  /\ inProjects (makeTempId (clock projectsWorld))
       (project_getAll
          (cache (world (createOutcomeMutation_onMutate "p1" []
                           (mkCreateOutcome "Ship beta" "weekly") projectsWorld))))
     = true.
Proof.
  split; [reflexivity|]. split; [reflexivity|].
  pose proof (provisional_record_written "p1" "Launch" "ACTIVE" "HIGH" []
                (mkCreateOutcome "Ship beta" "weekly") projectsWorld)
    as (_ & _ & _ & _ & _ & H & _).
  exact (H [sampleProject; otherProject] eq_refl eq_refl).
Defined.

(** ** Replacing the temporary identifier *)

(** What a successful outcome creation leaves in the cache: [onMutate]
    followed by [onSuccess].  [projectOutcomes] is what [onSuccess] reads as
    the outcomes of the project in the active list. *)
Lemma creation_success_cache (projectId name status priority : string)
    (current : list Outcome) (v : CreateOutcomeInput) (newOutcome : Outcome)
    (w : World) :
  let r := mutateAsync OutcomeCreate
             (createOutcomeMutation projectId name status priority current)
             v (Resolved newOutcome) w in
  let tid := makeTempId (clock w) in
  exists temp projectOutcomes,
    o_id temp = tid
    /\ cache (world r) =
       {| action_getAll := action_getAll (cache w);
          action_getToday := action_getToday (cache w);
          action_getProjectActions := action_getProjectActions (cache w);
          outcome_getMyOutcomes :=
            Some (map (replaceOutcome tid newOutcome)
                      (default [] (outcome_getMyOutcomes (cache w)) ++ [temp]));
          project_getActiveWithDetails :=
            option_map
              (fun ps =>
                 map (withOutcomes projectId (withoutTemp tid newOutcome projectOutcomes))
                   (map (withOutcomes projectId
                           (map (summarize projectId) (current ++ [temp]))) ps))
              (project_getActiveWithDetails (cache w));
          project_getAll :=
            option_map
              (fun ps =>
                 map (withOutcomes projectId (withoutTemp tid newOutcome projectOutcomes))
                   (map (withOutcomes projectId
                           (map (summarize projectId) (current ++ [temp]))) ps))
              (project_getAll (cache w)) |}.
Proof.
  destruct w as [[getAll getToday projectActions outcomes active allProjects] now].
  destruct outcomes, active, allProjects; eexists _, _;
    (split; [|reflexivity]); reflexivity.
  Unshelve. all: exact [].
Qed.

Lemma hasOutcome_replaced (tid : string) (newOutcome : Outcome) (l : list Outcome) :
  o_id newOutcome <> tid ->
  hasOutcome tid (map (replaceOutcome tid newOutcome) l) = false.
Proof.
  intros Hne. induction l as [|o l IH]; [reflexivity|].
  cbn [map hasOutcome existsb].
  fold (hasOutcome tid (map (replaceOutcome tid newOutcome) l)).
  rewrite IH, orb_false_r. unfold replaceOutcome.
  destruct (String.eqb_spec (o_id o) tid) as [_|Hno];
    now apply String.eqb_neq.
Qed.

Lemma replaceOutcome_fresh (tid : string) (newOutcome : Outcome) (l : list Outcome) :
  hasOutcome tid l = false -> map (replaceOutcome tid newOutcome) l = l.
Proof.
  induction l as [|o l IH]; [reflexivity|].
  cbn [hasOutcome existsb map]. intros H. apply orb_false_elim in H as [Ho Hl].
  unfold replaceOutcome at 1. rewrite Ho. f_equal. now apply IH.
Qed.

Lemma withoutTemp_clean (tid : string) (newOutcome : Outcome)
    (projectOutcomes : list ProjectOutcome) :
  o_id newOutcome <> tid ->
  existsb (fun o => String.eqb (po_id o) tid)
    (withoutTemp tid newOutcome projectOutcomes) = false.
Proof.
  intros Hne. unfold withoutTemp. rewrite existsb_app. cbn [existsb po_id].
  apply String.eqb_neq in Hne. rewrite Hne. cbn [orb]. rewrite orb_false_r.
  induction projectOutcomes as [|o l IH]; [reflexivity|].
  cbn [List.filter]. destruct (String.eqb (po_id o) tid) eqn:E; cbn [negb].
  - exact IH.
  - cbn [existsb]. now rewrite E, IH.
Qed.

(** After the two writes no project of the list mentions [tid], provided no
    project mentioned it before and the new outcomes do not. *)
Lemma inProjects_replaced (projectId tid : string)
    (written clean : list ProjectOutcome) (ps : list Project) :
  existsb (projectHasOutcome tid) ps = false ->
  existsb (fun o => String.eqb (po_id o) tid) clean = false ->
  existsb (projectHasOutcome tid)
    (map (withOutcomes projectId clean) (map (withOutcomes projectId written) ps))
  = false.
Proof.
  intros Hps Hclean. induction ps as [|p ps IH]; [reflexivity|].
  cbn [existsb map] in *. apply orb_false_elim in Hps as [Hp Hps].
  rewrite (IH Hps), orb_false_r. unfold withOutcomes.
  destruct (String.eqb (p_id p) projectId) eqn:E.
  - cbn [set_outcomes p_id]. rewrite E. exact Hclean.
  - rewrite E. exact Hp.
Qed.

(** After the two writes every record of the project holds the new outcome. *)
Lemma new_outcome_in_project (projectId tid : string) (newOutcome : Outcome)
    (written projectOutcomes : list ProjectOutcome) (ps : list Project)
    (p : Project) :
  In p (map (withOutcomes projectId (withoutTemp tid newOutcome projectOutcomes))
          (map (withOutcomes projectId written) ps)) ->
  p_id p = projectId ->
  In (Whole newOutcome) (p_outcomes p).
Proof.
  rewrite List.map_map. intros Hin Hid.
  apply List.in_map_iff in Hin as (p0 & <- & _).
  unfold withOutcomes in *.
  destruct (String.eqb (p_id p0) projectId) eqn:E.
  - cbn [set_outcomes p_id] in *. rewrite E. cbn [p_outcomes].
    unfold withoutTemp. apply List.in_or_app. right. now left.
  - rewrite E in *. apply String.eqb_neq in E. contradiction.
Qed.

(** C3: when an outcome creation succeeds (the temporary identifier being
    fresh: in no cached view before the mutation, and different from the
    identifier the server assigns), no cached view mentions the temporary
    identifier afterwards: in the user's outcome list the provisional record
    has become the server's record, and in both project lists every record
    of the project holds the server's record.  Then exactly one dependent
    mutation is issued, a project update whose outcome ids are those of the
    current outcomes followed by the server-assigned identifier. *)
Theorem temporary_id_replaced (projectId name status priority : string)
    (current : list Outcome) (v : CreateOutcomeInput) (newOutcome : Outcome)
    (w : World) :
  mentionsOutcome (makeTempId (clock w)) (cache w) = false ->
  o_id newOutcome <> makeTempId (clock w) ->
  let r := mutateAsync OutcomeCreate
             (createOutcomeMutation projectId name status priority current)
             v (Resolved newOutcome) w in
  mentionsOutcome (makeTempId (clock w)) (cache (world r)) = false
  /\ outcome_getMyOutcomes (cache (world r))
     = Some (default [] (outcome_getMyOutcomes (cache w)) ++ [newOutcome])
  /\ (forall ps p,
         project_getActiveWithDetails (cache (world r)) = Some ps ->
         In p ps -> p_id p = projectId -> In (Whole newOutcome) (p_outcomes p))
  /\ (forall ps p,
         project_getAll (cache (world r)) = Some ps ->
         In p ps -> p_id p = projectId -> In (Whole newOutcome) (p_outcomes p))
  /\ mutateCalls (events r)
     = [ ProjectUpdate
           {| up_id := projectId; up_name := name; up_status := status;
              up_priority := priority;
              up_outcomeIds := Some (map o_id current ++ [o_id newOutcome]) |} ].
Proof.
  intros Hfresh Hne r.
  destruct (creation_success_cache projectId name status priority current v
              newOutcome w) as (temp & projectOutcomes & Htemp & Hcache).
  fold r in Hcache.
  unfold mentionsOutcome in Hfresh.
  apply orb_false_elim in Hfresh as [Hfresh Hall].
  apply orb_false_elim in Hfresh as [Hlist Hactive].
  assert (Hold : hasOutcome (makeTempId (clock w))
                   (default [] (outcome_getMyOutcomes (cache w))) = false).
  { unfold inOutcomeList in Hlist.
    destruct (outcome_getMyOutcomes (cache w)); [exact Hlist | reflexivity]. }
  pose proof (withoutTemp_clean _ _ projectOutcomes Hne) as Hclean.
  split; [|split; [|split; [|split]]].
  - rewrite Hcache. unfold mentionsOutcome, inOutcomeList.
    cbn [outcome_getMyOutcomes project_getActiveWithDetails project_getAll].
    rewrite (hasOutcome_replaced _ _ _ Hne). cbn [orb].
    unfold inProjects in *.
    destruct (project_getActiveWithDetails (cache w)) as [active|];
      destruct (project_getAll (cache w)) as [allProjects|];
      cbn [option_map orb];
      rewrite ?(inProjects_replaced _ _ _ _ _ Hactive Hclean),
              ?(inProjects_replaced _ _ _ _ _ Hall Hclean);
      reflexivity.
  - rewrite Hcache. cbn [outcome_getMyOutcomes]. f_equal.
    rewrite map_app, (replaceOutcome_fresh _ _ _ Hold). cbn [map].
    unfold replaceOutcome. rewrite Htemp, String.eqb_refl. reflexivity.
  - intros ps p Hps Hin Hid. rewrite Hcache in Hps.
    cbn [project_getActiveWithDetails] in Hps.
    destruct (project_getActiveWithDetails (cache w)) as [active|];
      [|discriminate Hps].
    cbn [option_map] in Hps. injection Hps as <-.
    eapply new_outcome_in_project; eassumption.
  - intros ps p Hps Hin Hid. rewrite Hcache in Hps.
    cbn [project_getAll] in Hps.
    destruct (project_getAll (cache w)) as [allProjects|]; [|discriminate Hps].
    cbn [option_map] in Hps. injection Hps as <-.
    eapply new_outcome_in_project; eassumption.
  - subst r.
    destruct w as [[getAll getToday projectActions outcomes active allProjects] now].
    destruct outcomes, active, allProjects; reflexivity.
Qed.

Lemma temporary_id_replaced_witness :
  mentionsOutcome (makeTempId (clock projectsWorld)) (cache projectsWorld) = false
  /\ o_id sampleOutcome <> makeTempId (clock projectsWorld)
  /\ mentionsOutcome (makeTempId (clock projectsWorld))
       (cache (world (mutateAsync OutcomeCreate
                        (createOutcomeMutation "p1" "Launch" "ACTIVE" "HIGH" [])
                        (mkCreateOutcome "Ship beta" "weekly")
                        (Resolved sampleOutcome) projectsWorld))) = false.
Proof.
  assert (Hne : o_id sampleOutcome <> makeTempId (clock projectsWorld))
    by (vm_compute; discriminate).
  split; [reflexivity|]. split; [exact Hne|].
  exact (proj1 (temporary_id_replaced "p1" "Launch" "ACTIVE" "HIGH" []
                  (mkCreateOutcome "Ship beta" "weekly") sampleOutcome
                  projectsWorld eq_refl Hne)).
Defined.

(** * Further properties *)

(** ** Which updates a bulk reschedule issues *)

Lemma loop_issued_prefix (date : option Date) (totalCount : nat)
    (responses : nat -> Response Action) (rest : list string) :
  forall (i : nat) (results : list RescheduleResult) (w : World),
    issued (events (rescheduleLoop date totalCount responses i rest results w))
    = take (length (issued (events (rescheduleLoop date totalCount responses i
                                      rest results w)))) rest
    /\ ((forall j, stops (responses j) = false) ->
        issued (events (rescheduleLoop date totalCount responses i rest results w))
        = rest).
Proof.
  induction rest as [|actionId rest IH]; intros i results w; [split; reflexivity|].
  destruct (issued_loop_cons date totalCount responses i actionId rest results w)
    as (results' & w' & Hcons).
  rewrite Hcons. destruct (IH (S i) results' w') as (Hprefix & Hall).
  split.
  - destruct (stops (responses i)); [reflexivity|].
    cbn [length take]. f_equal. exact Hprefix.
  - intros Hnone. rewrite (Hnone i). f_equal. now apply Hall.
Qed.

(** The updates a bulk reschedule issues are those of a prefix of the given
    action ids, in the given order, one per position; when no answer is a
    connection error, every action id gets its update. *)
Theorem reschedule_issues_prefix (projectId : option string)
    (toDateString : Date -> string) (date : option Date) (ids : list string)
    (responses : nat -> Response Action) (w : World) :
  issued (events (handleOverdueBulkReschedule projectId toDateString date ids
                    responses w))
  = take (length (issued (events (handleOverdueBulkReschedule projectId
                                    toDateString date ids responses w)))) ids
  /\ ((forall j, stops (responses j) = false) ->
      issued (events (handleOverdueBulkReschedule projectId toDateString date ids
                        responses w)) = ids).
Proof.
  rewrite reschedule_issued. apply loop_issued_prefix.
Qed.

Lemma reschedule_issues_prefix_witness :
  (forall j, stops (firstFails j) = false)
  /\ issued (events (handleOverdueBulkReschedule None sampleDateString None
                       ["a1"; "a2"] firstFails twoActionsWorld))
     = ["a1"; "a2"].
Proof.
  assert (H : forall j, stops (firstFails j) = false)
    by (intros [|j]; reflexivity).
  split; [exact H|].
  exact (proj2 (reschedule_issues_prefix None sampleDateString None ["a1"; "a2"]
                  firstFails twoActionsWorld) H).
Defined.

Lemma reschedule_spaced_witness :
  (forall j, isResolved (allSucceed j) = true)
  /\ spacedBy 100
       (schedule (events (handleOverdueBulkReschedule None sampleDateString None
                            ["a1"; "a2"] allSucceed twoActionsWorld))) = true.
Proof.
  assert (H : forall j, isResolved (allSucceed j) = true) by (intros j; reflexivity).
  split; [exact H|].
  exact (reschedule_spaced_when_all_succeed None sampleDateString None
           ["a1"; "a2"] allSucceed twoActionsWorld H).
Defined.

(** ** What a bulk reschedule leaves in the cache *)

Lemma okIds_app (s1 s2 : list Step) : okIds (s1 ++ s2) = okIds s1 ++ okIds s2.
Proof.
  induction s1 as [|[id|id [|]|ms] s1 IH]; cbn [app okIds]; now rewrite ?IH.
Qed.

Lemma settledOk_app (t1 t2 : list Event) :
  settledOk (t1 ++ t2) = settledOk t1 ++ settledOk t2.
Proof. unfold settledOk. now rewrite schedule_app, okIds_app. Qed.

Lemma cacheWithActions_same (f : Action -> Action) (c : Cache) :
  (forall a, f a = a) -> cacheWithActions f c = c.
Proof.
  intros Hf. destruct c as [[l|] ? ? ? ? ?]; unfold cacheWithActions;
    cbn [action_getAll option_map]; [|reflexivity].
  f_equal. f_equal. induction l as [|a l IH]; [reflexivity|].
  cbn [map]. now rewrite Hf, IH.
Qed.

Lemma cacheWithActions_twice (f g h : Action -> Action) (c : Cache) :
  (forall a, g (f a) = h a) ->
  cacheWithActions g (cacheWithActions f c) = cacheWithActions h c.
Proof.
  intros Hh. destruct c as [[l|] ? ? ? ? ?]; unfold cacheWithActions;
    cbn [action_getAll action_getToday action_getProjectActions
         outcome_getMyOutcomes project_getActiveWithDetails project_getAll
         option_map]; [|reflexivity].
  f_equal. f_equal. rewrite List.map_map. apply List.map_ext. exact Hh.
Qed.

Lemma rescheduled_nil (date : option Date) (a : Action) : rescheduled [] date a = a.
Proof. reflexivity. Qed.

Lemma rescheduled_cons (id : string) (ids : list string) (date : option Date)
    (a : Action) :
  rescheduled ids date (applyDueDate id date a) = rescheduled (id :: ids) date a.
Proof.
  unfold rescheduled, applyDueDate, array_includes. cbn [existsb].
  destruct (String.eqb (a_id a) id) eqn:E; cbn [orb a_id set_dueDate].
  - now destruct (existsb (String.eqb (a_id a)) ids).
  - reflexivity.
Qed.

(** One update: a success leaves the optimistic write, a failure puts the
    cache back. *)
Lemma update_cache (v : UpdateActionInput) (response : Response Action) (w : World) :
  cache (world (mutateAsync ActionUpdate bulkUpdateMutation v response w))
  = if isResolved response
    then cacheWithActions (applyDueDate (ua_id v) (ua_dueDate v)) (cache w)
    else cache w.
Proof.
  destruct w as [[[l|] ? ? ? ? ?] ?]; destruct response; reflexivity.
Qed.

Lemma update_settledOk (v : UpdateActionInput) (response : Response Action)
    (w : World) :
  settledOk (events (mutateAsync ActionUpdate bulkUpdateMutation v response w))
  = if isResolved response then [ua_id v] else [].
Proof.
  unfold settledOk. rewrite action_update_schedule. now destruct response.
Qed.

Lemma loop_cache (date : option Date) (totalCount : nat)
    (responses : nat -> Response Action) (rest : list string) :
  forall (i : nat) (results : list RescheduleResult) (w : World),
    cache (world (rescheduleLoop date totalCount responses i rest results w))
    = cacheWithActions
        (rescheduled
           (settledOk (events (rescheduleLoop date totalCount responses i rest
                                 results w))) date)
        (cache w).
Proof.
  induction rest as [|actionId rest IH]; intros i results w.
  - cbn. symmetry. apply cacheWithActions_same. intros a. reflexivity.
  - rewrite rescheduleLoop_cons. cbn zeta.
    pose proof (update_cache {| ua_id := actionId; ua_dueDate := date |}
                  (responses i) w) as Hcache.
    pose proof (update_settledOk {| ua_id := actionId; ua_dueDate := date |}
                  (responses i) w) as Hok.
    fold (iterationUpdate date responses actionId i w) in Hcache, Hok.
    remember (iterationUpdate date responses actionId i w) as update eqn:Hupdate.
    clear Hupdate.
    assert (Hpause : cache (afterPause totalCount i (world update))
                     = cache (world update)).
    { unfold afterPause. now destruct (Nat.ltb i (totalCount - 1)). }
    assert (Hdelay :
              settledOk (if Nat.ltb i (totalCount - 1) then [EvDelay 100] else [])
              = []) by (now destruct (Nat.ltb i (totalCount - 1))).
    destruct (responses i) as [d|e]; cbn [isResolved ua_id ua_dueDate] in Hcache, Hok.
    + change (cache (world (rescheduleLoop date totalCount responses (S i) rest
                              (results ++ [okEntry actionId d])
                              (afterPause totalCount i (world update))))
              = cacheWithActions
                  (rescheduled
                     (settledOk
                        ([processingLine totalCount actionId i] ++ events update
                         ++ [EvConsole ConsoleLog
                               ("🔧 [BULK DEBUG] Mutation " +:+ show_nat (i + 1)
                                +:+ "/" +:+ show_nat totalCount
                                +:+ " SUCCESS for action " +:+ actionId +:+ ":")]
                         ++ (if Nat.ltb i (totalCount - 1) then [EvDelay 100] else [])
                         ++ events (rescheduleLoop date totalCount responses (S i)
                                      rest (results ++ [okEntry actionId d])
                                      (afterPause totalCount i (world update)))))
                     date)
                  (cache w)).
      rewrite IH, Hpause, Hcache, !settledOk_app, Hok, Hdelay.
      cbn [settledOk schedule okIds processingLine app].
      apply cacheWithActions_twice. intros a. apply rescheduled_cons.
    + destruct (isConnectionError (err_message e)).
      * change (cache (world update)
                = cacheWithActions
                    (rescheduled
                       (settledOk
                          (([processingLine totalCount actionId i] ++ events update
                            ++ [EvConsole ConsoleError
                                  ("🔧 [BULK DEBUG] Mutation " +:+ show_nat (i + 1)
                                   +:+ "/" +:+ show_nat totalCount
                                   +:+ " FAILED for action " +:+ actionId +:+ ":")])
                           ++ [EvConsole ConsoleError
                                 ("🔧 [BULK DEBUG] Database connection lost"
                                  +:+ " - stopping bulk operation")]))
                       date)
                    (cache w)).
        rewrite Hcache, !settledOk_app, Hok. symmetry.
        apply cacheWithActions_same. intros a. reflexivity.
      * change (cache (world (rescheduleLoop date totalCount responses (S i) rest
                                (results ++ [failEntry actionId e]) (world update)))
                = cacheWithActions
                    (rescheduled
                       (settledOk
                          (([processingLine totalCount actionId i] ++ events update
                            ++ [EvConsole ConsoleError
                                  ("🔧 [BULK DEBUG] Mutation " +:+ show_nat (i + 1)
                                   +:+ "/" +:+ show_nat totalCount
                                   +:+ " FAILED for action " +:+ actionId +:+ ":")])
                           ++ events (rescheduleLoop date totalCount responses (S i)
                                        rest (results ++ [failEntry actionId e])
                                        (world update))))
                       date)
                    (cache w)).
        rewrite IH, Hcache, !settledOk_app, Hok. reflexivity.
Qed.

Lemma rescheduled_keeps (ids : list string) (date : option Date) (l : list Action) :
  map a_id (map (rescheduled ids date) l) = map a_id l
  /\ map a_name (map (rescheduled ids date) l) = map a_name l.
Proof.
  rewrite !List.map_map. split; apply List.map_ext; intros a;
    unfold rescheduled; now destruct (array_includes ids (a_id a)).
Qed.

(** After a bulk reschedule the full action list shows the new due date on
    exactly the actions whose update settled successfully (a failed update
    is rolled back without undoing the earlier ones); no action is added,
    removed, reordered or renamed, a list without data stays without data,
    and no other cached query changes. *)
Theorem reschedule_cache (projectId : option string) (toDateString : Date -> string)
    (date : option Date) (ids : list string) (responses : nat -> Response Action)
    (w : World) :
  let r := handleOverdueBulkReschedule projectId toDateString date ids responses w in
  action_getAll (cache (world r))
  = option_map (map (rescheduled (settledOk (events r)) date))
      (action_getAll (cache w))
  /\ option_map (map a_id) (action_getAll (cache (world r)))
     = option_map (map a_id) (action_getAll (cache w))
  /\ option_map (map a_name) (action_getAll (cache (world r)))
     = option_map (map a_name) (action_getAll (cache w))
  /\ action_getToday (cache (world r)) = action_getToday (cache w)
  /\ action_getProjectActions (cache (world r)) = action_getProjectActions (cache w)
  /\ outcome_getMyOutcomes (cache (world r)) = outcome_getMyOutcomes (cache w)
  /\ project_getActiveWithDetails (cache (world r))
     = project_getActiveWithDetails (cache w)
  /\ project_getAll (cache (world r)) = project_getAll (cache w).
Proof.
  intros r.
  assert (Hcache : cache (world r)
                   = cacheWithActions (rescheduled (settledOk (events r)) date)
                       (cache w)).
  { subst r. destruct ids as [|actionId rest].
    - symmetry. apply cacheWithActions_same. intros a. reflexivity.
    - destruct (reschedule_trace projectId toDateString date responses actionId
                  rest w)
        as (before & after & Hev & Hw & (Hb & _) & (Ha & _) & _).
      rewrite Hw, Hev, loop_cache. unfold settledOk.
      now rewrite !schedule_app, Hb, Ha, app_nil_r. }
  rewrite Hcache. unfold cacheWithActions.
  cbn [action_getAll action_getToday action_getProjectActions
       outcome_getMyOutcomes project_getActiveWithDetails project_getAll].
  split; [reflexivity|].
  split; [|split; [|repeat split]].
  - destruct (action_getAll (cache w)) as [l|]; [|reflexivity].
    cbn [option_map]. f_equal. apply rescheduled_keeps.
  - destruct (action_getAll (cache w)) as [l|]; [|reflexivity].
    cbn [option_map]. f_equal. apply rescheduled_keeps.
Qed.

(** ** The toasts of a bulk reschedule *)







Section RescheduleToasts.

Variable projectId : option string.
Variable toDateString : Date -> string.
Variable date : option Date.
Variable responses : nat -> Response Action.


End RescheduleToasts.


(** ** Sets of strings *)

Lemma array_includes_In (l : list string) (x : string) :
  array_includes l x = true <-> In x l.
Proof.
  unfold array_includes. rewrite List.existsb_exists. split.
  - intros (y & Hy & E). apply String.eqb_eq in E. now subst.
  - intros H. exists x. split; [exact H | apply String.eqb_refl].
Qed.

Lemma array_includes_not_In (l : list string) (x : string) :
  array_includes l x = false <-> ~ In x l.
Proof.
  rewrite <- array_includes_In. now destruct (array_includes l x).
Qed.

Lemma Set_add_spec (s : list string) (x y : string) :
  In y (Set_add s x) <-> In y s \/ y = x.
Proof.
  unfold Set_add. destruct (array_includes s x) eqn:E.
  - apply array_includes_In in E. split; [now left|]. intros [H | ->]; assumption.
  - rewrite List.in_app_iff. cbn [In]. split.
    + intros [H | [H | []]]; [now left | now right].
    + intros [H | ->]; [now left | right; now left].
Qed.

Lemma Set_add_NoDup (s : list string) (x : string) :
  List.NoDup s -> List.NoDup (Set_add s x).
Proof.
  intros Hs. unfold Set_add. destruct (array_includes s x) eqn:E; [exact Hs|].
  apply array_includes_not_In in E.
  apply List.NoDup_app; [exact Hs | repeat constructor; intros [] |].
  intros y Hy [<- | []]. contradiction.
Qed.

Lemma fold_Set_add (values : list string) :
  forall s,
    (forall y, In y (fold_left Set_add values s) <-> In y s \/ In y values)
    /\ (List.NoDup s -> List.NoDup (fold_left Set_add values s)).
Proof.
  induction values as [|x values IH]; intros s.
  - cbn. split; [intros y; tauto | trivial].
  - cbn [fold_left]. destruct (IH (Set_add s x)) as (Hin & Hnd). split.
    + intros y. rewrite Hin, Set_add_spec. cbn [In]. intuition congruence.
    + intros Hs. apply Hnd, Set_add_NoDup, Hs.
Qed.

(** A set built from a list has the members of the list, each once. *)
Lemma newSet_spec (values : list string) :
  (forall y, In y (newSet values) <-> In y values) /\ List.NoDup (newSet values).
Proof.
  destruct (fold_Set_add values []) as (Hin & Hnd). split.
  - intros y. unfold newSet. rewrite Hin. cbn [In]. tauto.
  - apply Hnd. constructor.
Qed.

Lemma Set_has_newSet (values : list string) (x : string) :
  Set_has (newSet values) x = true <-> In x values.
Proof.
  unfold Set_has. rewrite array_includes_In. apply newSet_spec.
Qed.

(** ** The options of the outcome select *)

Lemma find_item_none (data : list SelectItem) (id : string) :
  List.find (fun o => String.eqb (item_value o) id) data = None
  <-> ~ In id (map item_value data).
Proof.
  induction data as [|o data IH]; cbn [List.find map In]; [tauto|].
  destruct (String.eqb_spec (item_value o) id) as [E|E].
  - split; [discriminate | intros H; elim H; now left].
  - rewrite IH. tauto.
Qed.

Lemma addIfMissing_values (data : list SelectItem) (outcome : Outcome) (v : string) :
  In v (map item_value (addIfMissing data outcome))
  <-> In v (map item_value data) \/ v = o_id outcome.
Proof.
  unfold addIfMissing.
  destruct (List.find _ data) eqn:E.
  - split; [now left|]. intros [H | ->]; [exact H|].
    destruct (List.in_dec string_dec (o_id outcome) (map item_value data))
      as [Hin|Hout]; [exact Hin|].
    apply find_item_none in Hout. congruence.
  - rewrite List.map_app, List.in_app_iff. cbn [map In toItem item_value].
    intuition congruence.
Qed.

Lemma addIfMissing_NoDup (data : list SelectItem) (outcome : Outcome) :
  List.NoDup (map item_value data) ->
  List.NoDup (map item_value (addIfMissing data outcome)).
Proof.
  intros Hd. unfold addIfMissing. destruct (List.find _ data) eqn:E; [exact Hd|].
  apply find_item_none in E. rewrite List.map_app.
  apply List.NoDup_app; [exact Hd | repeat constructor; intros [] |].
  intros y Hy [<- | []]. contradiction.
Qed.

Lemma fold_addIfMissing (outcomes : list Outcome) :
  forall data,
    (forall v, In v (map item_value (fold_left addIfMissing outcomes data))
               <-> In v (map item_value data) \/ In v (map o_id outcomes))
    /\ (List.NoDup (map item_value data) ->
        List.NoDup (map item_value (fold_left addIfMissing outcomes data))).
Proof.
  induction outcomes as [|o outcomes IH]; intros data.
  - cbn. split; [intros v; tauto | trivial].
  - cbn [fold_left map]. destruct (IH (addIfMissing data o)) as (Hin & Hnd). split.
    + intros v. rewrite Hin, addIfMissing_values. cbn [In]. intuition congruence.
    + intros Hd. apply Hnd, addIfMissing_NoDup, Hd.
Qed.

Lemma toItem_values (outcomes : list Outcome) :
  map item_value (map toItem outcomes) = map o_id outcomes.
Proof. rewrite List.map_map. reflexivity. Qed.

(** The values offered before reordering: the ids of the offered and of
    the current outcomes. *)
Lemma allOutcomeData_values (current offered : list Outcome) (v : string) :
  In v (map item_value (allOutcomeData current offered))
  <-> In v (map o_id offered) \/ In v (map o_id current).
Proof.
  unfold allOutcomeData.
  rewrite (proj1 (fold_addIfMissing current (map toItem offered))), toItem_values.
  reflexivity.
Qed.

Lemma split_by_test {A : Type} (test : A -> bool) (l : list A) :
  Permutation (List.filter test l ++ List.filter (fun x => negb (test x)) l) l.
Proof.
  induction l as [|x l IH]; [constructor|].
  cbn [List.filter]. destruct (test x); cbn [negb app].
  - now constructor.
  - symmetry. apply Permutation_cons_app. now symmetry.
Qed.

Lemma listedOutcomes_values (current offered : list Outcome) :
  map item_value (listedOutcomes current offered)
  = map item_value
      (List.filter (fun o => Set_has (selectedOutcomeIds current) (item_value o))
                   (allOutcomeData current offered)
       ++ List.filter
            (fun o => negb (Set_has (selectedOutcomeIds current) (item_value o)))
            (allOutcomeData current offered)).
Proof.
  unfold listedOutcomes, selectedOutcomes, unselectedOutcomes.
  rewrite !List.map_app, List.map_map. reflexivity.
Qed.

(** Putting the selected outcomes first loses and repeats nothing: the
    listed values are a rearrangement of the ids of the offered outcomes
    and of the current outcomes not among them; and when the offered
    outcomes have distinct ids, no value is listed twice. *)
Theorem listed_outcomes_rearranged (current offered : list Outcome) :
  Permutation (map item_value (listedOutcomes current offered))
              (map item_value (allOutcomeData current offered))
  /\ (forall v, In v (map item_value (listedOutcomes current offered))
                <-> In v (map o_id offered) \/ In v (map o_id current))
  /\ (List.NoDup (map o_id offered) ->
      List.NoDup (map item_value (listedOutcomes current offered))).
Proof.
  assert (Hperm : Permutation (map item_value (listedOutcomes current offered))
                    (map item_value (allOutcomeData current offered))).
  { rewrite listedOutcomes_values. apply Permutation_map, split_by_test. }
  split; [exact Hperm|]. split.
  - intros v. rewrite <- allOutcomeData_values. split; intros H.
    + eapply Permutation_in; [exact Hperm | exact H].
    + eapply Permutation_in; [symmetry; exact Hperm | exact H].
  - intros Hd. eapply Permutation_NoDup; [symmetry; exact Hperm|].
    unfold allOutcomeData. apply fold_addIfMissing. now rewrite toItem_values.
Qed.

Lemma listed_outcomes_rearranged_witness :
  List.NoDup (map o_id [sampleOutcome])
  /\ List.NoDup (map item_value (listedOutcomes [sampleOutcome] [sampleOutcome])).
Proof.
  assert (H : List.NoDup (map o_id [sampleOutcome]))
    by (repeat constructor; intros []).
  split; [exact H|].
  exact (proj2 (proj2 (listed_outcomes_rearranged [sampleOutcome] [sampleOutcome])) H).
Defined.

Lemma prefix_append (p s : string) : String.prefix p (p +:+ s) = true.
Proof.
  induction p as [|c p IH]; [now destruct s|].
  change (String.prefix (String c p) (String c (p +:+ s)) = true). simpl.
  destruct (Ascii.ascii_dec c c) as [_|Hne]; [exact IH | now elim Hne].
Qed.

(** The options listed first are exactly the current outcomes, each label
    marked with a check; the options listed after them are the offered
    outcomes that are not current.  So every id the select receives as its
    value is the value of one of its options, with or without the create
    option. *)
Theorem current_outcomes_offered (trim : string -> string)
    (current offered : list Outcome) (searchValue : string) :
  (forall v, In v (map item_value (selectedOutcomes current offered))
             <-> In v (map o_id current))
  /\ (forall v, In v (map item_value (unselectedOutcomes current offered))
                <-> In v (map o_id offered) /\ ~ In v (map o_id current))
  /\ Forall (fun item => String.prefix "✓ " (item_label item) = true)
       (selectedOutcomes current offered)
  /\ incl (map o_id current)
       (map item_value (outcomeData trim current offered searchValue)).
Proof.
  assert (Hsel : forall v, In v (map item_value (selectedOutcomes current offered))
                           <-> In v (map o_id current)).
  { intros v. unfold selectedOutcomes. rewrite List.map_map. cbn [item_value].
    rewrite List.in_map_iff. split.
    - intros (item & <- & Hin). apply List.filter_In in Hin as (_ & Hhas).
      now apply Set_has_newSet in Hhas.
    - intros Hv.
      assert (Hall : In v (map item_value (allOutcomeData current offered)))
        by (apply allOutcomeData_values; now right).
      apply List.in_map_iff in Hall as (item & <- & Hitem).
      exists item. split; [reflexivity|]. apply List.filter_In. split; [exact Hitem|].
      now apply Set_has_newSet. }
  split; [exact Hsel|]. split; [|split].
  - intros v. unfold unselectedOutcomes. rewrite List.in_map_iff. split.
    + intros (item & <- & Hin). apply List.filter_In in Hin as (Hitem & Hhas).
      apply negb_true_iff in Hhas.
      assert (Hnot : ~ In (item_value item) (map o_id current)).
      { intros Hc. apply Set_has_newSet in Hc. unfold selectedOutcomeIds in Hhas.
        congruence. }
      split; [|exact Hnot].
      assert (Hv : In (item_value item)
                     (map item_value (allOutcomeData current offered)))
        by (apply List.in_map; exact Hitem).
      apply allOutcomeData_values in Hv as [Hv | Hv]; [exact Hv | contradiction].
    + intros (Hoff & Hnot).
      assert (Hall : In v (map item_value (allOutcomeData current offered)))
        by (apply allOutcomeData_values; now left).
      apply List.in_map_iff in Hall as (item & <- & Hitem).
      exists item. split; [reflexivity|]. apply List.filter_In. split; [exact Hitem|].
      apply negb_true_iff. unfold selectedOutcomeIds.
      destruct (Set_has (newSet (map o_id current)) (item_value item)) eqn:E;
        [|reflexivity].
      apply Set_has_newSet in E. contradiction.
  - unfold selectedOutcomes. apply List.Forall_map, List.Forall_forall.
    intros item _. cbn [item_label]. apply prefix_append.
  - intros v Hv. apply Hsel in Hv.
    assert (Hlisted : In v (map item_value (listedOutcomes current offered))).
    { unfold listedOutcomes. rewrite List.map_app. apply List.in_or_app. now left. }
    unfold outcomeData. destruct (truthy (trim searchValue)); [|exact Hlisted].
    rewrite List.map_app. apply List.in_or_app. now left.
Qed.

(** ** The [onChange] of the outcome select *)

Lemma prefix_slice (p s : string) :
  String.prefix p s = true -> s = p +:+ slice (String.length p) s.
Proof.
  revert s. induction p as [|c p IH]; intros s H; [reflexivity|].
  destruct s as [|d s]; [discriminate|]. simpl in H.
  destruct (Ascii.ascii_dec c d) as [->|]; [|discriminate].
  change (String d s = String d (p +:+ slice (String.length p) s)).
  f_equal. now apply IH.
Qed.

Lemma slice_append (p s : string) : slice (String.length p) (p +:+ s) = s.
Proof.
  induction p as [|c p IH]; [now destruct s|].
  change (slice (String.length p) (p +:+ s) = s). exact IH.
Qed.

Lemma replaceFirst_prefix (p s : string) :
  String.prefix p s = true -> replaceFirst p "" s = slice (String.length p) s.
Proof.
  intros H. destruct s; cbn [replaceFirst]; rewrite H; reflexivity.
Qed.

Lemma find_last_create (values : list string) (v : string) :
  forallb (fun x => negb (String.prefix "create-" x)) values = true ->
  String.prefix "create-" v = true ->
  List.find (fun x => String.prefix "create-" x) (values ++ [v]) = Some v.
Proof.
  intros Hall Hv. induction values as [|x values IH]; simpl.
  - now rewrite Hv.
  - simpl in Hall. apply andb_true_iff in Hall as (Hx & Hall).
    apply negb_true_iff in Hx. rewrite Hx. now apply IH.
Qed.

(** A change of the selection starts exactly one mutation and writes
    nothing itself.  It is a creation, of type weekly, exactly when one of
    the values starts with [create-], and its description is then such a
    value without the prefix; otherwise it is the update of this project
    with all the values as its outcome ids. *)
Theorem onChange_one_mutation (projectId projectName projectStatus
    projectPriority : string) (values : list string) (w : World) :
  let r := outcomeSelect_onChange projectId projectName projectStatus
             projectPriority values w in
  world r = w
  /\ exists call, events r = [EvMutate call]
     /\ match call with
        | OutcomeCreate c =>
            co_type c = "weekly" /\ In ("create-" +:+ co_description c) values
        | ProjectUpdate u =>
            u = {| up_id := projectId; up_name := projectName;
                   up_status := projectStatus; up_priority := projectPriority;
                   up_outcomeIds := Some values |}
            /\ forallb (fun v => negb (String.prefix "create-" v)) values = true
        | ActionUpdate _ => False
        end.
Proof.
  cbv zeta. unfold outcomeSelect_onChange.
  destruct (List.find (fun v => String.prefix "create-" v) values) as [v|] eqn:Hfind.
  - apply List.find_some in Hfind as (Hin & Hpre).
    destruct v as [|c v]; [discriminate|].
    split; [reflexivity|]. eexists. split; [reflexivity|].
    cbn [co_type co_description]. split; [reflexivity|].
    rewrite (replaceFirst_prefix _ _ Hpre).
    now rewrite <- (prefix_slice _ _ Hpre).
  - split; [reflexivity|]. eexists. split; [reflexivity|].
    split; [reflexivity|]. apply forallb_forall. intros x Hx.
    apply negb_true_iff. exact (List.find_none _ _ Hfind x Hx).
Qed.

(** Choosing the create option sends the search text as typed as the
    description of the new outcome, whatever else is selected, provided no
    selected id itself starts with [create-]. *)
Theorem create_option_round_trip (projectId projectName projectStatus
    projectPriority searchValue : string) (values : list string) (w : World) :
  forallb (fun v => negb (String.prefix "create-" v)) values = true ->
  events (outcomeSelect_onChange projectId projectName projectStatus
            projectPriority (values ++ [item_value (createOption searchValue)]) w)
  = [EvMutate (OutcomeCreate {| co_description := searchValue;
                                co_type := "weekly" |})].
Proof.
  intros Hall. unfold outcomeSelect_onChange, createOption. cbn [item_value].
  pose proof (prefix_append "create-" searchValue) as Hpre.
  assert (Hdesc : replaceFirst "create-" "" ("create-" +:+ searchValue) = searchValue).
  { rewrite (replaceFirst_prefix _ _ Hpre). apply slice_append. }
  remember ("create-" +:+ searchValue) as createValue eqn:Hcv. clear Hcv.
  rewrite (find_last_create _ _ Hall Hpre).
  destruct createValue as [|c createValue]; [discriminate Hpre|].
  now rewrite Hdesc.
Qed.

Lemma create_option_round_trip_witness :
  events (outcomeSelect_onChange "p1" "Launch" "ACTIVE" "HIGH"
            (["o1"; "o2"] ++ [item_value (createOption "create-a plan ")])
            emptyWorld)
  = [EvMutate (OutcomeCreate {| co_description := "create-a plan ";
                                co_type := "weekly" |})].
Proof.
  apply (create_option_round_trip "p1" "Launch" "ACTIVE" "HIGH" "create-a plan "
           ["o1"; "o2"] emptyWorld).
  reflexivity.
Defined.

(** ** The goals table *)

Lemma definedTitles_spec (titles : list (option string)) (t : string) :
  In t (definedTitles titles) <-> In (Some t) titles /\ truthy t = true.
Proof.
  induction titles as [|[title|] rest IH]; simpl.
  - tauto.
  - destruct (truthy title) eqn:E; simpl; rewrite IH; split.
    + intros [->|[H1 H2]]; auto.
    + intros [[H|H] H2]; [left; congruence | auto].
    + intros [H1 H2]; auto.
    + intros [[H|H] H2]; [congruence | auto].
  - rewrite IH. split; [intros [H1 H2]; auto | intros [[H|H] H2]; [discriminate | auto]].
Qed.

Lemma lifeDomainTitles_spec (goals : list Goal) (t : string) :
  In t (lifeDomainTitles (Some goals))
  <-> t <> "" /\ exists goal, In goal goals /\ lifeDomainTitle goal = Some t.
Proof.
  unfold lifeDomainTitles.
  rewrite (proj1 (newSet_spec _)), definedTitles_spec, List.in_map_iff.
  unfold truthy. split.
  - intros [(goal & Ht & Hin) Hne]. split; [now destruct t | eauto].
  - intros [Hne (goal & Hin & Ht)]. split; [eauto | now destruct t].
Qed.

(** The tabs after [All] carry no title twice, and they are exactly the
    non-empty life-domain titles of the goals. *)
Theorem life_domain_tabs (goals : list Goal) :
  List.NoDup (lifeDomainTitles (Some goals))
  /\ forall t, In t (lifeDomainTitles (Some goals))
               <-> t <> "" /\ exists goal, In goal goals
                                           /\ lifeDomainTitle goal = Some t.
Proof.
  split; [apply newSet_spec | apply lifeDomainTitles_spec].
Qed.

Lemma filter_all {A : Type} (f : A -> bool) (l : list A) :
  (forall x, f x = true) -> List.filter f l = l.
Proof.
  intros H. induction l as [|x l IH]; simpl; [reflexivity|].
  now rewrite H, IH.
Qed.

(** The invitation to create a first goal is shown exactly when there is
    no goal at all, the [All] tab is active and past-due goals are not
    hidden.  On the first render past-due goals are hidden, so an empty
    list of goals is reported as matching no filter. *)
Theorem no_goals_yet_message (today : Date) (goals : list Goal)
    (activeTab : option string) (hidePastDue : bool) :
  (view_message (GoalsTable today (Some goals) activeTab hidePastDue)
   = Some "No goals yet. Create your first one!"
   <-> goals = [] /\ activeTab = Some "all" /\ hidePastDue = false)
  /\ view_message (GoalsTable today (Some []) initialTab initialHidePastDue)
     = Some "No goals match the current filters.".
Proof.
  split; [|reflexivity]. split.
  - unfold GoalsTable, view_message. cbv zeta.
    destruct (Nat.eqb (length (filteredGoals today activeTab hidePastDue goals)) 0)
      eqn:Hlen; [|discriminate].
    destruct (activeTabIsAll activeTab && negb hidePastDue) eqn:Hcond;
      [|discriminate].
    intros _. apply andb_true_iff in Hcond as (Hall & Hhide).
    apply negb_true_iff in Hhide.
    assert (Hsame : filteredGoals today activeTab hidePastDue goals = goals).
    { apply filter_all. intros goal. unfold goalMatches.
      now rewrite Hall, Hhide. }
    rewrite Hsame in Hlen. apply Nat.eqb_eq in Hlen.
    split; [now destruct goals|]. split; [|exact Hhide].
    unfold activeTabIsAll in Hall. destruct activeTab as [tab|]; [|discriminate].
    apply String.eqb_eq in Hall. now subst.
  - intros (-> & -> & ->). reflexivity.
Qed.

(** With past-due goals shown, the tab of every life domain has a table
    with at least one row, and unless the domain is itself titled [all]
    every row is a goal of that domain. *)
Theorem life_domain_tab_has_rows (today : Date) (goals : list Goal) (t : string) :
  In t (lifeDomainTitles (Some goals)) ->
  exists goal rows,
    GoalsTable today (Some goals) (Some t) false
    = GoalsPanel ("all" :: lifeDomainTitles (Some goals)) None
        (Some (goal :: rows))
    /\ (t = "all"
        \/ Forall (fun g => lifeDomainTitle g = Some t) (goal :: rows)).
Proof.
  intros Hin. apply lifeDomainTitles_spec in Hin as (_ & goal0 & Hgoal0 & Htitle).
  assert (Hlisted : In goal0 (filteredGoals today (Some t) false goals)).
  { apply List.filter_In. split; [exact Hgoal0|]. unfold goalMatches.
    rewrite Htitle, String.eqb_refl. cbn. now rewrite orb_true_r. }
  assert (Hrows : t = "all"
                  \/ Forall (fun g => lifeDomainTitle g = Some t)
                       (filteredGoals today (Some t) false goals)).
  { destruct (String.eqb t "all") eqn:Hall;
      [left; now apply String.eqb_eq|right].
    apply List.Forall_forall. intros g Hg.
    apply List.filter_In in Hg as (_ & Hg). unfold goalMatches in Hg.
    apply andb_true_iff in Hg as (Hg & _). unfold activeTabIsAll in Hg.
    rewrite Hall in Hg. cbn in Hg.
    destruct (lifeDomainTitle g) as [title|]; [|discriminate].
    apply String.eqb_eq in Hg. now subst. }
  unfold GoalsTable. cbv zeta.
  destruct (filteredGoals today (Some t) false goals) as [|goal rows];
    [contradiction|].
  exists goal, rows. split; [reflexivity | exact Hrows].
Qed.

Lemma life_domain_tab_has_rows_witness :
  exists goal rows,
    GoalsTable 1700000000000%Z (Some sampleGoals) (Some "Health") false
    = GoalsPanel ("all" :: lifeDomainTitles (Some sampleGoals)) None
        (Some (goal :: rows))
    /\ ("Health" = "all"
        \/ Forall (fun g => lifeDomainTitle g = Some "Health") (goal :: rows)).
Proof.
  apply (life_domain_tab_has_rows 1700000000000%Z sampleGoals "Health").
  vm_compute. left. reflexivity.
Defined.

(** ** The date picker *)

(** Selecting a date, or none, first hands it to the owner and closes the
    popover, and ends with exactly one toast, bordered, blue for a date
    and gray for none.  The legacy [onClear] is called exactly when no
    date was selected and the callback was provided. *)
Theorem date_select_effects (toLocaleDateString : Date -> DateFormat -> string)
    (toUpperCase : string -> string) (mode : PickerMode) (selectedCount : nat)
    (notificationContext : string) (onClear : bool) (date : option Date) :
  let t := handleDateSelect toLocaleDateString toUpperCase mode selectedCount
             notificationContext onClear date in
  (exists rest toast,
      t = PkOnChange date :: PkSetOpened false :: rest ++ [PkNotify toast]
      /\ List.filter isPickerToast rest = []
      /\ pt_withBorder toast = true
      /\ pt_color toast = match date with Some _ => "blue" | None => "gray" end)
  /\ (In PkOnClear t <-> date = None /\ onClear = true).
Proof.
  cbv zeta. split.
  - exists (match date with
            | None => if onClear then [PkOnClear] else []
            | Some _ => []
            end),
           (dateSelectToast toLocaleDateString toUpperCase mode selectedCount
              notificationContext date).
    split; [reflexivity|].
    unfold dateSelectToast, isBulkMode.
    destruct date, onClear, mode; repeat split; reflexivity.
  - unfold handleDateSelect. destruct date as [d|], onClear; cbn [app In]; split.
    all: try (intros [H|[H|[H|[]]]]; discriminate H).
    all: try (intros [H|[H|[H|[H|[]]]]]; try discriminate H).
    all: try (intros [H1 H2]; discriminate).
    + split; reflexivity.
    + intros _. right. right. left. reflexivity.
Qed.

(** The calendar never takes a date away: whatever it reports, neither
    [onChange(null)] nor [onClear] is called, and a deselection in the
    calendar reaches nobody but the calendar's own state. *)
Theorem calendar_never_clears (toLocaleDateString : Date -> DateFormat -> string)
    (toUpperCase : string -> string) (mode : PickerMode) (selectedCount : nat)
    (notificationContext : string) (onClear : bool) (date : option Date) :
  existsb clearsDate
    (calendar_onChange toLocaleDateString toUpperCase mode selectedCount
       notificationContext onClear date) = false
  /\ calendar_onChange toLocaleDateString toUpperCase mode selectedCount
       notificationContext onClear None = [PkSetCalendarDate None]
  /\ handleCalendarSelect toLocaleDateString toUpperCase mode selectedCount
       notificationContext onClear None = [].
Proof.
  split; [|split; reflexivity].
  destruct date as [d|]; reflexivity.
Qed.

Lemma untilSaturday_iter (getDay getDate : Date -> Z) (setDate : Z -> Date -> Date) :
  (forall d, 0 <= getDay d <= 6)%Z ->
  (forall d, getDay (nextDay getDate setDate d) = (getDay d + 1) mod 7)%Z ->
  forall (n fuel : nat) (now : Date),
    getDay now = (6 - Z.of_nat n)%Z -> n <= fuel ->
    untilSaturday getDay getDate setDate fuel now
    = Some (Nat.iter n (nextDay getDate setDate) now).
Proof.
  intros Hrange Hstep. induction n as [|n IH]; intros fuel now Hday Hfuel.
  - destruct fuel; simpl; rewrite Hday; reflexivity.
  - destruct fuel as [|fuel]; [lia|].
    pose proof (Hrange now) as Hnow.
    cbn [untilSaturday].
    destruct (getDay now =? 6)%Z eqn:E; [apply Z.eqb_eq in E; lia|].
    rewrite Nat.iter_succ_r. apply IH; [|lia].
    rewrite Hstep, Hday.
    replace (6 - Z.of_nat (S n) + 1)%Z with (6 - Z.of_nat n)%Z by lia.
    apply Z.mod_small. lia.
Qed.

(** Where the weekday moves on by one with each day, the loop of
    [getNextWeekendDate] ends within six rounds: the date returned is a
    Saturday, reached by moving on [6 - getDay now] days, so on a Saturday
    the next weekend is that same day. *)
Theorem next_weekend_is_saturday (getDay getDate : Date -> Z)
    (setDate : Z -> Date -> Date) (fuel : nat) (now : Date) :
  (forall d, 0 <= getDay d <= 6)%Z ->
  (forall d, getDay (nextDay getDate setDate d) = (getDay d + 1) mod 7)%Z ->
  6 <= fuel ->
  exists date,
    getNextWeekendDate getDay getDate setDate fuel now = Some date
    /\ getDay date = 6%Z
    /\ date = Nat.iter (Z.to_nat (6 - getDay now)) (nextDay getDate setDate) now.
Proof.
  intros Hrange Hstep Hfuel. pose proof (Hrange now) as Hnow.
  assert (Hrun : getNextWeekendDate getDay getDate setDate fuel now
                 = Some (Nat.iter (Z.to_nat (6 - getDay now))
                           (nextDay getDate setDate) now)).
  { apply untilSaturday_iter; [exact Hrange | exact Hstep | lia | lia]. }
  eexists. split; [exact Hrun|]. split; [|reflexivity].
  assert (Hiter : forall n d, (Z.of_nat n <= 6 - getDay d)%Z ->
            getDay (Nat.iter n (nextDay getDate setDate) d)
            = (getDay d + Z.of_nat n)%Z).
  { induction n as [|n IHn]; intros d Hn; [simpl; lia|].
    rewrite Nat.iter_succ, Hstep, IHn by lia.
    pose proof (Hrange d). rewrite Z.mod_small; lia. }
  rewrite Hiter; lia.
Qed.

Lemma plainGetDay_range (d : Date) : (0 <= plainGetDay d <= 6)%Z.
Proof.
  unfold plainGetDay.
  pose proof (Z.mod_pos_bound (d / msPerDay + 4) 7 ltac:(lia)). lia.
Qed.

Lemma plainGetDay_next (d : Date) :
  (plainGetDay (nextDay plainGetDate plainSetDate d) = (plainGetDay d + 1) mod 7)%Z.
Proof.
  unfold plainGetDay, nextDay, plainGetDate, plainSetDate, msPerDay.
  rewrite Z.div_add_l by lia.
  rewrite (Z.div_small (d mod 86400000)) by (apply Z.mod_pos_bound; lia).
  rewrite Z.add_0_r, Zplus_mod_idemp_l. f_equal. lia.
Qed.

Lemma next_weekend_is_saturday_witness :
  exists date,
    getNextWeekendDate plainGetDay plainGetDate plainSetDate 6 1700000000000%Z
    = Some date
    /\ plainGetDay date = 6%Z
    /\ date = Nat.iter (Z.to_nat (6 - plainGetDay 1700000000000%Z))
                (nextDay plainGetDate plainSetDate) 1700000000000%Z.
Proof.
  apply (next_weekend_is_saturday plainGetDay plainGetDate plainSetDate 6
           1700000000000%Z plainGetDay_range plainGetDay_next).
  lia.
Defined.

(** ** The route handler *)

Section RouteHandlerFacts.

Variable AUTH_SECRET : option string.
Variable jwt_verify : string -> string -> Thrown + Decoded.
Variable importTools : option Thrown.
Variable execute : string -> Thrown + ToolResult.

Lemma header_cases (authorization : option string) :
  (forall token, authorization <> Some ("Bearer " +:+ token))
  \/ exists token, authorization = Some ("Bearer " +:+ token).
Proof.
  destruct authorization as [header|]; [|left; discriminate].
  destruct (String.prefix "Bearer " header) eqn:Hpre.
  - right. exists (slice 7 header). f_equal. exact (prefix_slice _ _ Hpre).
  - left. intros token [= ->]. rewrite prefix_append in Hpre. discriminate.
Qed.

Lemma GET_without_bearer (authorization : option string) :
  (forall token, authorization <> Some ("Bearer " +:+ token)) ->
  GET AUTH_SECRET jwt_verify importTools execute authorization
  = ({| status := 401; body := BodyAuthorizationRequired "Authorization required" |},
     [ApiConsole ConsoleLog "🧪 [TEST] Direct getAllProjectsTool test endpoint called";
      ApiConsole ConsoleLog "❌ [TEST] No auth token provided"]).
Proof.
  intros Hno. unfold GET, GET_try.
  destruct authorization as [header|]; [|reflexivity].
  destruct (String.prefix "Bearer " header) eqn:Hpre; [|reflexivity].
  elim (Hno (slice 7 header)). f_equal. exact (prefix_slice _ _ Hpre).
Qed.

Lemma GET_with_bearer (token : string) :
  exists t,
    apiCalls t = [] /\
    GET AUTH_SECRET jwt_verify importTools execute (Some ("Bearer " +:+ token))
    = match jwt_verify token (default "" AUTH_SECRET) with
      | inl thrown =>
          ({| status := 500;
              body := BodyFailure (errorMessageOf thrown) "Direct tool test failed" |},
           t ++ [ApiVerify token (default "" AUTH_SECRET);
                 ApiConsole ConsoleError "💥 [TEST] Direct tool test failed:"])
      | inr _ =>
          match importTools with
          | Some thrown =>
              ({| status := 500;
                  body := BodyFailure (errorMessageOf thrown)
                            "Direct tool test failed" |},
               t ++ [ApiVerify token (default "" AUTH_SECRET);
                     ApiConsole ConsoleLog "✅ [TEST] Token verified, userId:";
                     ApiImport;
                     ApiConsole ConsoleError "💥 [TEST] Direct tool test failed:"])
          | None =>
              match execute token with
              | inl thrown =>
                  ({| status := 500;
                      body := BodyFailure (errorMessageOf thrown)
                                "Direct tool test failed" |},
                   t ++ [ApiVerify token (default "" AUTH_SECRET);
                         ApiConsole ConsoleLog "✅ [TEST] Token verified, userId:";
                         ApiImport;
                         ApiConsole ConsoleLog "🔧 [TEST] Tool imported successfully";
                         ApiExecute token;
                         ApiConsole ConsoleError "💥 [TEST] Direct tool test failed:"])
              | inr result =>
                  ({| status := 200;
                      body := BodySuccess result
                                ("Successfully retrieved "
                                 +:+ show_Z (tr_total result)
                                 +:+ " projects via direct tool call") |},
                   t ++ [ApiVerify token (default "" AUTH_SECRET);
                         ApiConsole ConsoleLog "✅ [TEST] Token verified, userId:";
                         ApiImport;
                         ApiConsole ConsoleLog "🔧 [TEST] Tool imported successfully";
                         ApiExecute token;
                         ApiConsole ConsoleLog "🎉 [TEST] Tool executed successfully:"])
              end
          end
      end.
Proof.
  exists [ApiConsole ConsoleLog "🧪 [TEST] Direct getAllProjectsTool test endpoint called";
          ApiConsole ConsoleLog "🔑 [TEST] Token received, length:"].
  split; [reflexivity|].
  unfold GET, GET_try. rewrite prefix_append.
  change 7 with (String.length "Bearer "). rewrite slice_append.
  unfold try_bind, try_step, api_log, try_ret. cbn [fst snd].
  destruct (jwt_verify token (default "" AUTH_SECRET)) as [thrown|decoded];
    [now destruct thrown|].
  destruct importTools as [thrown|]; [now destruct thrown|].
  destruct (execute token) as [thrown|result]; [now destruct thrown|].
  reflexivity.
Qed.

(** The answer is 401 exactly when the header is missing or does not start
    with [Bearer ] (capital B, one space); the handler then calls nothing
    but the console.  Every other answer is 200 or 500. *)
Theorem unauthorized_without_bearer (authorization : option string) :
  (status (fst (GET AUTH_SECRET jwt_verify importTools execute authorization)) = 401%Z
   <-> forall token, authorization <> Some ("Bearer " +:+ token))
  /\ (status (fst (GET AUTH_SECRET jwt_verify importTools execute authorization))
       = 401%Z
      /\ apiCalls (snd (GET AUTH_SECRET jwt_verify importTools execute
                          authorization)) = []
      \/ status (fst (GET AUTH_SECRET jwt_verify importTools execute authorization))
         = 500%Z
      \/ status (fst (GET AUTH_SECRET jwt_verify importTools execute authorization))
         = 200%Z).
Proof.
  destruct (header_cases authorization) as [Hno | (token & ->)].
  - rewrite (GET_without_bearer _ Hno). cbn [fst snd status]. split.
    + split; [intros _; exact Hno | reflexivity].
    + left. split; reflexivity.
  - destruct (GET_with_bearer token) as (t & _ & ->).
    assert (Hwith : ~ (forall token', Some ("Bearer " +:+ token)
                                      <> Some ("Bearer " +:+ token')))
      by (intros H; now apply (H token)).
    destruct (jwt_verify token (default "" AUTH_SECRET)) as [thrown|decoded];
      [|destruct importTools as [thrown|];
        [|destruct (execute token) as [thrown|result]]];
      cbn [fst snd status]; (split; [split; [discriminate | tauto] | tauto]).
Qed.

(** The tool is executed exactly when the header is [Bearer ] followed by
    a token that [jwt.verify] accepts under the secret of the environment
    (the empty secret when there is none) and the tools can be imported;
    the token it is given is the rest of the header. *)
Theorem tool_runs_with_verified_token (authorization : option string)
    (token : string) :
  In (ApiExecute token)
     (snd (GET AUTH_SECRET jwt_verify importTools execute authorization))
  <-> authorization = Some ("Bearer " +:+ token)
      /\ (exists decoded,
            jwt_verify token (default "" AUTH_SECRET) = inr decoded)
      /\ importTools = None.
Proof.
  assert (Hlogs : forall t e, apiCalls t = [] -> isApiConsole e = false ->
                              ~ In e t).
  { intros t e Ht He Hin.
    assert (Hf : In e (apiCalls t)) by (apply List.filter_In; now rewrite He).
    rewrite Ht in Hf. exact Hf. }
  destruct (header_cases authorization) as [Hno | (token' & ->)].
  - rewrite (GET_without_bearer _ Hno). cbn [snd]. split.
    + intros [H|[H|[]]]; discriminate H.
    + intros (-> & _). now elim (Hno token).
  - destruct (GET_with_bearer token') as (t & Ht & ->).
    pose proof (Hlogs t (ApiExecute token) Ht eq_refl) as Hnot.
    assert (Hinj : Some ("Bearer " +:+ token') = Some ("Bearer " +:+ token)
                   -> token' = token).
    { intros H. apply (f_equal (fun o => option_map (slice 7) o)) in H.
      cbn [option_map] in H. change 7 with (String.length "Bearer ") in H.
      rewrite !slice_append in H. now injection H. }
    destruct (jwt_verify token' (default "" AUTH_SECRET)) as [thrown|decoded]
      eqn:Hverify;
      [|destruct importTools as [thrown|] eqn:Himport;
        [|destruct (execute token') as [thrown|result]]];
      cbn [snd]; rewrite List.in_app_iff; cbn [In]; split.
    all: try (intros [H|H]; [contradiction|];
              repeat (destruct H as [H|H]; try discriminate H);
              try contradiction).
    all: try (intros (Heq & (decoded' & Hdec) & Himp);
              apply Hinj in Heq; subst token'; congruence).
    all: try (injection H as ->; split; [reflexivity|]; split; eauto).
    all: try (intros (Heq & _); apply Hinj in Heq; subst token'; right;
              do 4 right; left; reflexivity).
Qed.

Lemma last_suffix {A : Type} (l : list A) (a : A) (suffix : list A) (d : A) :
  List.last (l ++ a :: suffix) d = List.last (a :: suffix) d.
Proof.
  induction l as [|x l IH]; [reflexivity|].
  cbn [app]. rewrite <- IH. cbn [List.last]. now destruct (l ++ a :: suffix) eqn:E;
    [destruct l; discriminate E|].
Qed.

Lemma apiCalls_app (t1 t2 : list ApiEvent) :
  apiCalls (t1 ++ t2) = apiCalls t1 ++ apiCalls t2.
Proof.
  apply List.filter_app.
Qed.

(** For a header [Bearer ] followed by a token: whatever [jwt.verify]
    throws is answered with status 500 and its message, and neither the
    import nor the tool is called; whatever the import throws is answered
    likewise, and the tool is not called; whatever the tool throws is
    answered likewise.  In each case the last thing the handler does is to
    log the failure.  When nothing is thrown the answer is 200 and carries
    the very result of the tool.  For any header, a failure body goes only
    with status 500 and such a thrown value, and a success body only with
    status 200 and the result of the tool for the header's token. *)
Theorem failure_answered_with_500 (token : string) (authorization : option string) :
  match jwt_verify token (default "" AUTH_SECRET) with
  | inl thrown =>
      fst (GET AUTH_SECRET jwt_verify importTools execute (Some ("Bearer " +:+ token)))
      = {| status := 500;
           body := BodyFailure (errorMessageOf thrown) "Direct tool test failed" |}
      /\ apiCalls (snd (GET AUTH_SECRET jwt_verify importTools execute
                          (Some ("Bearer " +:+ token))))
         = [ApiVerify token (default "" AUTH_SECRET)]
      /\ List.last (snd (GET AUTH_SECRET jwt_verify importTools execute
                           (Some ("Bearer " +:+ token)))) ApiImport
         = ApiConsole ConsoleError "💥 [TEST] Direct tool test failed:"
  | inr _ =>
      match importTools with
      | Some thrown =>
          fst (GET AUTH_SECRET jwt_verify importTools execute
                 (Some ("Bearer " +:+ token)))
          = {| status := 500;
               body := BodyFailure (errorMessageOf thrown) "Direct tool test failed" |}
          /\ apiCalls (snd (GET AUTH_SECRET jwt_verify importTools execute
                              (Some ("Bearer " +:+ token))))
             = [ApiVerify token (default "" AUTH_SECRET); ApiImport]
          /\ List.last (snd (GET AUTH_SECRET jwt_verify importTools execute
                               (Some ("Bearer " +:+ token)))) ApiImport
             = ApiConsole ConsoleError "💥 [TEST] Direct tool test failed:"
      | None =>
          match execute token with
          | inl thrown =>
              fst (GET AUTH_SECRET jwt_verify importTools execute
                     (Some ("Bearer " +:+ token)))
              = {| status := 500;
                   body := BodyFailure (errorMessageOf thrown)
                             "Direct tool test failed" |}
              /\ apiCalls (snd (GET AUTH_SECRET jwt_verify importTools execute
                                  (Some ("Bearer " +:+ token))))
                 = [ApiVerify token (default "" AUTH_SECRET); ApiImport;
                    ApiExecute token]
              /\ List.last (snd (GET AUTH_SECRET jwt_verify importTools execute
                                   (Some ("Bearer " +:+ token)))) ApiImport
                 = ApiConsole ConsoleError "💥 [TEST] Direct tool test failed:"
          | inr result =>
              fst (GET AUTH_SECRET jwt_verify importTools execute
                     (Some ("Bearer " +:+ token)))
              = {| status := 200;
                   body := BodySuccess result
                             ("Successfully retrieved " +:+ show_Z (tr_total result)
                              +:+ " projects via direct tool call") |}
              /\ apiCalls (snd (GET AUTH_SECRET jwt_verify importTools execute
                                  (Some ("Bearer " +:+ token))))
                 = [ApiVerify token (default "" AUTH_SECRET); ApiImport;
                    ApiExecute token]
              /\ List.last (snd (GET AUTH_SECRET jwt_verify importTools execute
                                   (Some ("Bearer " +:+ token)))) ApiImport
                 = ApiConsole ConsoleLog "🎉 [TEST] Tool executed successfully:"
          end
      end
  end
  /\ match body (fst (GET AUTH_SECRET jwt_verify importTools execute authorization)) with
     | BodyAuthorizationRequired _ =>
         status (fst (GET AUTH_SECRET jwt_verify importTools execute authorization))
         = 401%Z
     | BodySuccess result _ =>
         status (fst (GET AUTH_SECRET jwt_verify importTools execute authorization))
         = 200%Z
         /\ exists token', authorization = Some ("Bearer " +:+ token')
                           /\ execute token' = inr result
     | BodyFailure error _ =>
         status (fst (GET AUTH_SECRET jwt_verify importTools execute authorization))
         = 500%Z
         /\ (exists t,
               snd (GET AUTH_SECRET jwt_verify importTools execute authorization)
               = t ++ [ApiConsole ConsoleError "💥 [TEST] Direct tool test failed:"])
         /\ exists token' thrown,
              authorization = Some ("Bearer " +:+ token')
              /\ error = errorMessageOf thrown
              /\ (jwt_verify token' (default "" AUTH_SECRET) = inl thrown
                  \/ importTools = Some thrown
                  \/ execute token' = inl thrown)
     end.
Proof.
  split.
  - destruct (GET_with_bearer token) as (t & Ht & ->).
    destruct (jwt_verify token (default "" AUTH_SECRET)) as [thrown|decoded];
      [|destruct importTools as [thrown|];
        [|destruct (execute token) as [thrown|result]]];
      cbn [fst snd]; rewrite apiCalls_app, Ht, last_suffix;
      repeat split.
  - destruct (header_cases authorization) as [Hno | (token' & ->)].
    + rewrite (GET_without_bearer _ Hno). reflexivity.
    + destruct (GET_with_bearer token') as (t & _ & ->).
      destruct (jwt_verify token' (default "" AUTH_SECRET)) as [thrown|decoded]
        eqn:Hverify;
        [|destruct importTools as [thrown|] eqn:Himport;
          [|destruct (execute token') as [thrown|result] eqn:Hexecute]];
        cbn [fst snd status body].
      * split; [reflexivity|]. split.
        -- exists (t ++ [ApiVerify token' (default "" AUTH_SECRET)]).
           now rewrite <- List.app_assoc.
        -- exists token', thrown. auto.
      * split; [reflexivity|]. split.
        -- exists (t ++ [ApiVerify token' (default "" AUTH_SECRET);
                         ApiConsole ConsoleLog "✅ [TEST] Token verified, userId:";
                         ApiImport]).
           now rewrite <- List.app_assoc.
        -- exists token', thrown. auto.
      * split; [reflexivity|]. split.
        -- exists (t ++ [ApiVerify token' (default "" AUTH_SECRET);
                         ApiConsole ConsoleLog "✅ [TEST] Token verified, userId:";
                         ApiImport;
                         ApiConsole ConsoleLog "🔧 [TEST] Tool imported successfully";
                         ApiExecute token']).
           now rewrite <- List.app_assoc.
        -- exists token', thrown. auto.
      * split; [reflexivity|]. exists token'. auto.
Qed.

End RouteHandlerFacts.

(** ** The modal of the tokens page *)

Lemma runHandler_token (s : TokensState) (h : TokensHandler) :
  match h with
  | GenerateSucceeded token =>
      ts_generatedToken (runHandler s h) = Some token
      /\ ts_showToken (runHandler s h) = true
  | CloseModal =>
      ts_generatedToken (runHandler s h) = None
      /\ ts_showToken (runHandler s h) = false
  | _ =>
      ts_generatedToken (runHandler s h) = ts_generatedToken s
      /\ ts_showToken (runHandler s h) = ts_showToken s
  end.
Proof.
  destruct h; split; reflexivity.
Qed.

Lemma runHandlers_app (hs1 hs2 : list TokensHandler) (s : TokensState) :
  runHandlers (hs1 ++ hs2) s = runHandlers hs2 (runHandlers hs1 s).
Proof.
  unfold runHandlers. apply List.fold_left_app.
Qed.

(** Whatever happens to the page, in whatever order, the modal shows the
    token panel exactly while a generated token is held, and the text of
    the panel is then the token of the latest successful generation, the
    modal not having been closed since; while the form is shown no token
    is held. *)
Theorem token_panel_iff_token_held (hs : list TokensHandler) :
  match modalContent (runHandlers hs initialTokensState) with
  | TokenForm => ts_generatedToken (runHandlers hs initialTokensState) = None
  | TokenPanel code =>
      exists token before after,
        code = Some token
        /\ hs = before ++ GenerateSucceeded token :: after
        /\ forallb keepsToken after = true
  end.
Proof.
  assert (Hinv : match ts_generatedToken (runHandlers hs initialTokensState) with
                 | Some token =>
                     ts_showToken (runHandlers hs initialTokensState) = true
                     /\ exists before after,
                          hs = before ++ GenerateSucceeded token :: after
                          /\ forallb keepsToken after = true
                 | None => ts_showToken (runHandlers hs initialTokensState) = false
                 end).
  { induction hs as [|h hs IH] using List.rev_ind; [reflexivity|].
    rewrite runHandlers_app.
    change (runHandlers [h] (runHandlers hs initialTokensState))
      with (runHandler (runHandlers hs initialTokensState) h).
    pose proof (runHandler_token (runHandlers hs initialTokensState) h) as Hh.
    destruct h; destruct Hh as (-> & ->);
      try (split; [reflexivity|]; exists hs, []; split; reflexivity);
      try reflexivity;
      (destruct (ts_generatedToken (runHandlers hs initialTokensState))
         as [token|]; [|exact IH]);
      destruct IH as (Hshow & before & after & -> & Hafter);
      (split; [exact Hshow|]); eexists before, (after ++ [_]);
      (split; [now rewrite <- List.app_assoc|]);
      rewrite List.forallb_app, Hafter; reflexivity. }
  unfold modalContent.
  destruct (ts_generatedToken (runHandlers hs initialTokensState)) as [token|].
  - destruct Hinv as (-> & before & after & Hhs & Hafter). cbn.
    exists token, before, after. auto.
  - rewrite Hinv. reflexivity.
Qed.

(** Once the modal is closed the token is gone: until another token is
    generated, nothing that happens to the page brings it back, and the
    modal shows the form. *)
Theorem closed_modal_forgets_token (before after : list TokensHandler) :
  forallb (fun h => negb (isGenerateSucceeded h)) after = true ->
  let s := runHandlers (before ++ [CloseModal] ++ after) initialTokensState in
  ts_generatedToken s = None /\ modalContent s = TokenForm.
Proof.
  intros Hafter. cbv zeta. rewrite !runHandlers_app.
  set (s0 := runHandlers before initialTokensState).
  change (runHandlers [CloseModal] s0) with (runHandler s0 CloseModal).
  assert (Hkeep : forall s,
            ts_generatedToken s = None /\ ts_showToken s = false ->
            ts_generatedToken (runHandlers after s) = None
            /\ ts_showToken (runHandlers after s) = false).
  { induction after as [|h after IH]; intros s Hs; [exact Hs|].
    cbn [forallb] in Hafter. apply andb_true_iff in Hafter as (Hh & Hafter).
    change (runHandlers (h :: after) s) with (runHandlers after (runHandler s h)).
    apply (IH Hafter). pose proof (runHandler_token s h) as Hstep.
    destruct h; try discriminate Hh; destruct Hstep as (-> & ->);
      try exact Hs; split; reflexivity. }
  destruct (Hkeep (runHandler s0 CloseModal) (runHandler_token s0 CloseModal))
    as (Htoken & Hshow).
  split; [exact Htoken|]. unfold modalContent. now rewrite Hshow.
Qed.

Lemma closed_modal_forgets_token_witness :
  let s := runHandlers
             ([ClickCreate; GenerateSucceeded "3f9c"] ++ [CloseModal]
              ++ [ClickCreate; RevokeSucceeded; GenerateFailed (mkError "busy")])
             initialTokensState in
  ts_generatedToken s = None /\ modalContent s = TokenForm.
Proof.
  apply (closed_modal_forgets_token [ClickCreate; GenerateSucceeded "3f9c"]
           [ClickCreate; RevokeSucceeded; GenerateFailed (mkError "busy")]).
  reflexivity.
Defined.

(** ** The two lifecycles agree *)

Lemma bind_assoc {A B C : Type} (m : M A) (k : A -> M B) (k' : B -> M C) (w : World) :
  bind (bind m k) k' w = bind m (fun a => bind (k a) k') w.
Proof.
  unfold bind. cbn [fst snd]. now rewrite List.app_assoc.
Qed.

Lemma bind_ret_l {A B : Type} (a : A) (k : A -> M B) (w : World) :
  bind (ret a) k w = k a w.
Proof.
  unfold bind, ret. cbn [fst snd]. now destruct (k a w) as [[b w'] t].
Qed.

Lemma bind_ext {A B : Type} (m : M A) (k k' : A -> M B) (w : World) :
  (forall a w', k a w' = k' a w') -> bind m k w = bind m k' w.
Proof.
  intros H. unfold bind. now rewrite H.
Qed.

(** On options whose [onMutate] does not throw, and without callbacks of
    the call, [mutate] does what [mutateAsync] does. *)
Lemma mutate_mutateAsync {V D C : Type} (tag : V -> MutationCall)
    (o : MutationOptions V D C) (v : V) (response : Response D) (w : World) :
  world (mutate tag (hooksOf o) noCallbacks v response w)
  = world (mutateAsync tag o v response w)
  /\ events (mutate tag (hooksOf o) noCallbacks v response w)
     = events (mutateAsync tag o v response w).
Proof.
  assert (H : mutate tag (hooksOf o) noCallbacks v response w
              = bind (mutateAsync tag o v response) (fun _ => ret tt) w).
  { unfold mutate, mutateAsync, hooksOf, run_onMutate. cbn [hook_onMutate].
    rewrite bind_assoc. apply bind_ext. intros [] w1.
    destruct (onMutate o) as [f|].
    - rewrite !bind_assoc. apply bind_ext. intros c w2.
      rewrite !bind_ret_l, bind_assoc. apply bind_ext. intros [] w3.
      unfold settle, run_onSuccess, run_onError, run_onSettled, callback, noCallbacks.
      cbn [hook_onSuccess hook_onError hook_onSettled call_onSuccess call_onError
           call_onSettled].
      destruct response; rewrite !bind_assoc; apply bind_ext; intros [] w4;
        rewrite !bind_assoc; apply bind_ext; intros [] w5;
        reflexivity.
    - rewrite bind_assoc, bind_ret_l, bind_assoc. apply bind_ext. intros [] w3.
      unfold settle, run_onSuccess, run_onError, run_onSettled, callback, noCallbacks.
      cbn [hook_onSuccess hook_onError hook_onSettled call_onSuccess call_onError
           call_onSettled].
      destruct response; rewrite !bind_assoc; apply bind_ext; intros [] w4;
        rewrite !bind_assoc; apply bind_ext; intros [] w5;
        reflexivity. }
  rewrite H. unfold world, events, bind, ret. cbn [fst snd].
  now rewrite List.app_nil_r.
Qed.

(** ** A selection that creates nothing *)

Lemma find_no_create (values : list string) :
  forallb (fun v => negb (String.prefix "create-" v)) values = true ->
  List.find (fun v => String.prefix "create-" v) values = None.
Proof.
  induction values as [|x values IH]; [reflexivity|].
  cbn [forallb List.find]. intros H. apply andb_true_iff in H as (Hx & H).
  apply negb_true_iff in Hx. rewrite Hx. now apply IH.
Qed.

(** A change of the selection that creates nothing starts the update of
    the project with the selected ids, and that update never reaches the
    server: its [onMutate] throws on the unbound [outcomeIds], so whatever
    the server would answer no request is sent, nothing is written, the
    cache stays as it was, the mutation settles as failed and no toast is
    raised. *)
Theorem selection_never_reaches_server (projectId projectName projectStatus
    projectPriority : string) (values : list string) (response : Response Project)
    (w : World) :
  forallb (fun v => negb (String.prefix "create-" v)) values = true ->
  exists u,
    mutateCalls (events (outcomeSelect_onChange projectId projectName projectStatus
                           projectPriority values w)) = [ProjectUpdate u]
    /\ up_id u = projectId
    /\ up_outcomeIds u = Some values
    /\ requestsSent (events (mutate ProjectUpdate (updateProject projectId)
                               noCallbacks u response w)) = 0
    /\ List.filter isWrite (events (mutate ProjectUpdate (updateProject projectId)
                                      noCallbacks u response w)) = []
    /\ cache (world (mutate ProjectUpdate (updateProject projectId)
                       noCallbacks u response w)) = cache w
    /\ failedMutations (events (mutate ProjectUpdate (updateProject projectId)
                                  noCallbacks u response w)) = 1
    /\ shown (events (mutate ProjectUpdate (updateProject projectId)
                        noCallbacks u response w)) = [].
Proof.
  intros Hvalues. unfold outcomeSelect_onChange.
  rewrite (find_no_create values Hvalues).
  eexists. split; [reflexivity|].
  destruct w as [[getAll getToday projectActions outcomes active allProjects] now].
  repeat split.
Qed.

Lemma selection_never_reaches_server_witness :
  exists u,
    mutateCalls (events (outcomeSelect_onChange "p1" "Launch" "ACTIVE" "HIGH"
                           ["o1"; "o2"] projectsWorld)) = [ProjectUpdate u]
    /\ up_id u = "p1"
    /\ up_outcomeIds u = Some ["o1"; "o2"]
    /\ requestsSent (events (mutate ProjectUpdate (updateProject "p1")
                               noCallbacks u (Resolved sampleProject)
                               projectsWorld)) = 0
    /\ List.filter isWrite (events (mutate ProjectUpdate (updateProject "p1")
                                      noCallbacks u (Resolved sampleProject)
                                      projectsWorld)) = []
    /\ cache (world (mutate ProjectUpdate (updateProject "p1")
                       noCallbacks u (Resolved sampleProject) projectsWorld))
       = cache projectsWorld
    /\ failedMutations (events (mutate ProjectUpdate (updateProject "p1")
                                  noCallbacks u (Resolved sampleProject)
                                  projectsWorld)) = 1
    /\ shown (events (mutate ProjectUpdate (updateProject "p1")
                        noCallbacks u (Resolved sampleProject) projectsWorld)) = [].
Proof.
  apply (selection_never_reaches_server "p1" "Launch" "ACTIVE" "HIGH" ["o1"; "o2"]
           (Resolved sampleProject) projectsWorld).
  reflexivity.
Defined.
